(** * nose.case: the test-case wrappers of pynose

    A shallow embedding of [src/nose/case.py]: the universal wrapper [Test]
    (the "Adapter" of the specification), [FunctionTestCase] and
    [MethodTestCase], over a small model of the Python object protocol
    (attribute lookup, calls, exceptions with [try]/[except]/[finally]). *)

From stdpp Require Import base strings list gmap.

Set Warnings "-register-all".
Open Scope string_scope.

(** ** Exceptions *)

(** The built-in exception classes that [case.py] names or raises, and the
    other direct children of [BaseException]. *)
Inductive builtin_exc :=
| BaseException
| Exception
| KeyboardInterrupt
| SystemExit
| GeneratorExit
| AttributeError
| TypeError
| ValueError
| AssertionError.

#[global] Instance builtin_exc_eq_dec : EqDecision builtin_exc.
Proof. solve_decision. Defined.

(** An exception class is built in or defined by a [class] statement that
    lists its bases (Python allows several). *)
Inductive exc_class :=
| Builtin (b : builtin_exc)
| UserDefined (name : string) (bases : list exc_class).

(** The base of each built-in class ([BaseException] is the root). *)
Definition builtin_base (b : builtin_exc) : option builtin_exc :=
  match b with
  | BaseException => None
  | Exception | KeyboardInterrupt | SystemExit | GeneratorExit =>
      Some BaseException
  | AttributeError | TypeError | ValueError | AssertionError =>
      Some Exception
  end.

Definition builtin_subclass (b d : builtin_exc) : bool :=
  bool_decide (b = d)
  || match builtin_base b with
     | None => false
     | Some p =>
         bool_decide (p = d)
         || match builtin_base p with
            | None => false
            | Some q => bool_decide (q = d)
            end
     end.

(** [issubclass c d]: what an [except d:] clause tests on the class of the
    exception in flight. *)
Fixpoint issubclass (c : exc_class) (d : builtin_exc) : bool :=
  match c with
  | Builtin b => builtin_subclass b d
  | UserDefined _ bases => existsb (fun b => issubclass b d) bases
  end.

Record exn := Exn { exc_type : exc_class; exc_msg : string }.

Definition isinstance (e : exn) (d : builtin_exc) : bool :=
  issubclass (exc_type e) d.

(** ** Values *)

Definition ref := nat.

(** A function object ([def]) and a class object, as far as this module
    looks at them: [__module__], [__name__], and the names a class
    defines. *)
Record funcdef := Func { fn_module : string; fn_name : string }.

Record classdef := Class {
  cls_module : string;
  cls_name : string;
  cls_methods : list funcdef
}.

Inductive value :=
| VNone
| VStr (s : string)
| VTuple (items : list value)
| VExcInfo (e : exn)                      (* the triple of sys.exc_info() *)
| VFunction (f : funcdef)                 (* inspect.isfunction holds *)
| VMethod (self : ref) (f : funcdef)      (* a method with its __self__ *)
| VClass (c : classdef)
| VObj (r : ref).                         (* any other object, by identity *)

Definition is_None (v : value) : bool :=
  match v with VNone => true | _ => false end.

(** Python truth of a value ([if v:]); objects are true unless their class
    says otherwise, which is not modelled. *)
Definition truth (v : value) : bool :=
  match v with
  | VNone => false
  | VStr s => negb (String.eqb s "")
  | VTuple items => negb (bool_decide (length items = 0))
  | _ => true
  end.

(** [desc == s] for a [str] s: equal only to the same string. *)
Definition eq_str (v : value) (s : string) : bool :=
  match v with
  | VStr d => String.eqb d s
  | _ => false
  end.

(** ** Computations: state and exceptions *)

Inductive outcome (A : Type) :=
| Ok (a : A)
| Raise (e : exn).
Arguments Ok {A} a.
Arguments Raise {A} e.

Definition M (S A : Type) : Type := S → outcome A * S.

Definition ret {S A} (a : A) : M S A := fun s => (Ok a, s).

Definition raise {S A} (e : exn) : M S A := fun s => (Raise e, s).

Definition bind {S A B} (m : M S A) (k : A → M S B) : M S B :=
  fun s =>
    match m s with
    | (Ok a, s1) => k a s1
    | (Raise e, s1) => (Raise e, s1)
    end.

Declare Scope py_scope.
Delimit Scope py_scope with py.
Notation "x <- m ;; k" := (bind m (fun x => k))
  (at level 100, m at next level, right associativity) : py_scope.
Notation "m ;;; k" := (bind m (fun _ => k))
  (at level 100, right associativity) : py_scope.
Open Scope py_scope.

(** The clauses of a [try] statement, in source order: the first clause
    whose class matches handles the exception. *)
Definition handlers (S A : Type) := list (builtin_exc * (exn → M S A)).

Fixpoint dispatch {S A} (hs : handlers S A) (e : exn) : M S A :=
  match hs with
  | [] => raise e
  | (d, h) :: hs' => if isinstance e d then h e else dispatch hs' e
  end.

(** [try: body except ...: ...] *)
Definition try_except {S A} (body : M S A) (hs : handlers S A) : M S A :=
  fun s =>
    match body s with
    | (Ok a, s1) => (Ok a, s1)
    | (Raise e, s1) => dispatch hs e s1
    end.

(** [try: body except ...: ... else: orelse]; the [else] suite runs outside
    the protection of the clauses. *)
Definition try_except_else {S A B} (body : M S A) (hs : handlers S B)
    (orelse : A → M S B) : M S B :=
  fun s =>
    match body s with
    | (Ok a, s1) => orelse a s1
    | (Raise e, s1) => dispatch hs e s1
    end.

(** [try: body finally: final]; an exception of [final] replaces whatever
    [body] left in flight. *)
Definition try_finally {S A} (body : M S A) (final : M S unit) : M S A :=
  fun s =>
    match body s with
    | (o, s1) =>
        match final s1 with
        | (Ok _, s2) => (o, s2)
        | (Raise e, s2) => (Raise e, s2)
        end
    end.

(** ** The collaborators

    Everything outside [case.py] (the wrapped test, the result collector,
    the plugin manager, [nose.config] and [nose.util], the built-in
    methods of [str]) acts on a state [W] of its own, through the object
    protocol below. *)
Class Runtime (W : Type) := {
  rt_getattr : value → string → W → outcome value * W;          (* o.name *)
  rt_setattr : value → string → value → W → outcome unit * W;   (* o.name = v *)
  rt_call : value → list value → W → outcome value * W;         (* f(args) *)
  rt_str : value → W → outcome string * W;                      (* str(o) *)
  rt_repr : value → W → outcome string * W;                     (* repr(o) *)
  rt_callable : ref → bool;       (* isinstance(o, collections.Callable),
                                     the abstract base class *)
  rt_tuple_items : ref → option (list value);
                                  (* the items of o, if isinstance(o, tuple) *)
  rt_Config : value;              (* nose.config.Config *)
  rt_resolve_name : value;        (* nose.util.resolve_name *)
  rt_test_address : value         (* nose.util.test_address *)
}.

(** [isinstance(v, collections.Callable)]: functions, methods and classes
    are callable, an object is when its class defines [__call__]. [VTuple]
    is an instance of [tuple] itself, which defines none; an instance of
    a class derived from [tuple] is an object, with [rt_tuple_items], and
    may well be callable. *)
Definition isCallable `{Runtime W} (v : value) : bool :=
  match v with
  | VFunction _ | VMethod _ _ | VClass _ => true
  | VObj r => rt_callable r
  | VNone | VStr _ | VTuple _ | VExcInfo _ => false
  end.

(** [isinstance(v, tuple)], with the items. *)
Definition as_tuple `{Runtime W} (v : value) : option (list value) :=
  match v with
  | VTuple items => Some items
  | VObj r => rt_tuple_items r
  | _ => None
  end.

(** The calls [Test.run] issues, in the roles the source gives them. *)
Inductive event :=
| EvResultProxy (factory result self : value)   (* self.resultProxy(result, self) *)
| EvBeforeTest (result test : value)            (* result.beforeTest(self.test) *)
| EvPrepareTestCase (plugins self : value)      (* plugins.prepareTestCase(self) *)
| EvTest (callee result : value)                (* test(result) *)
| EvAddError (result self err : value)          (* result.addError(self, err) *)
| EvAfterTest (result test : value).            (* result.afterTest(self.test) *)

Definition is_addError (ev : event) : bool :=
  match ev with EvAddError _ _ _ => true | _ => false end.

Definition is_afterTest (ev : event) : bool :=
  match ev with EvAfterTest _ _ => true | _ => false end.

Definition is_test (ev : event) : bool :=
  match ev with EvTest _ _ => true | _ => false end.

(** The state of a run: the collaborators' world, and the calls issued so
    far (latest first). The collaborators never see the trace. *)
Record state (W : Type) := State { world : W; trace : list event }.
Arguments State {W} world trace.
Arguments world {W} s.
Arguments trace {W} s.

Definition ext {W A} (f : W → outcome A * W) : M (state W) A :=
  fun s =>
    match f (world s) with
    | (o, w) => (o, State w (trace s))
    end.

Definition emit {W} (ev : event) : M (state W) unit :=
  fun s => (Ok tt, State (world s) (ev :: trace s)).

Definition getattr `{Runtime W} (o : value) (name : string)
    : M (state W) value :=
  ext (rt_getattr o name).

Definition setattr `{Runtime W} (o : value) (name : string) (v : value)
    : M (state W) unit :=
  ext (rt_setattr o name v).

Definition call `{Runtime W} (f : value) (args : list value)
    : M (state W) value :=
  ext (rt_call f args).

Definition str `{Runtime W} (o : value) : M (state W) string :=
  ext (rt_str o).

(** [repr(o)]: runs the [__repr__] of the object, which may raise. *)
Definition repr `{Runtime W} (o : value) : M (state W) string :=
  ext (rt_repr o).

(** [pre %r post % arg], a format with one conversion. A tuple on the
    right of [%] (an instance of a derived class too) is unpacked into
    the arguments of the format, anything else is the single argument.
    The conversion takes the first argument; arguments that are left
    when the format is exhausted are an error. *)
Definition percent_r `{Runtime W} (pre post : string) (arg : value)
    : M (state W) string :=
  match as_tuple arg with
  | Some [] =>
      raise (Exn (Builtin TypeError) "not enough arguments for format string")
  | Some [x] => r <- repr x;; ret (pre ++ r ++ post)
  | Some (x :: _) =>
      _ <- repr x;;
      raise (Exn (Builtin TypeError)
               "not all arguments converted during string formatting")
  | None => r <- repr arg;; ret (pre ++ r ++ post)
  end.

(** The calls of one kind in a trace, latest first. *)
Definition calls {W} (p : event → bool) (s : state W) : list event :=
  filter (fun ev => p ev = true) (trace s).

(** ** Methods of [str] and [%s] formatting

    A [string] stands for a Python [str] whose characters are the code
    points below 256. *)

(** [c.isspace()] *)
Definition isspace (c : Ascii.ascii) : bool :=
  let n := Ascii.nat_of_ascii c in
  (Nat.leb 9 n && Nat.leb n 13) || (Nat.leb 28 n && Nat.leb n 32)
  || Nat.eqb n 133 || Nat.eqb n 160.

(** [s.lstrip()] *)
Fixpoint lstrip (s : string) : string :=
  match s with
  | EmptyString => EmptyString
  | String c s' => if isspace c then lstrip s' else s
  end.

(** [s.rstrip()] *)
Fixpoint rstrip (s : string) : string :=
  match s with
  | EmptyString => EmptyString
  | String c s' =>
      match rstrip s' with
      | EmptyString => if isspace c then EmptyString else String c EmptyString
      | r => String c r
      end
  end.

(** [s.strip()] *)
Definition strip (s : string) : string := rstrip (lstrip s).

Definition newline : Ascii.ascii := Ascii.ascii_of_nat 10.

(** [s.split("\n")[0]]: what precedes the first newline. *)
Fixpoint first_line (s : string) : string :=
  match s with
  | EmptyString => EmptyString
  | String c s' =>
      if Ascii.eqb c newline then EmptyString else String c (first_line s')
  end.

(** What the properties of the functions above are stated with: whether
    [c] occurs in [s], whether [s] begins or ends with white space,
    whether [s] is white space only. *)
Fixpoint occurs (c : Ascii.ascii) (s : string) : bool :=
  match s with
  | EmptyString => false
  | String c' s' => Ascii.eqb c' c || occurs c s'
  end.

Definition head_is_space (s : string) : bool :=
  match s with
  | EmptyString => false
  | String c _ => isspace c
  end.

Fixpoint last_is_space (s : string) : bool :=
  match s with
  | EmptyString => false
  | String c EmptyString => isspace c
  | String _ s' => last_is_space s'
  end.

Fixpoint blank (s : string) : bool :=
  match s with
  | EmptyString => true
  | String c s' => isspace c && blank s'
  end.

(** [sep.join(l)] *)
Fixpoint join (sep : string) (l : list string) : string :=
  match l with
  | [] => ""
  | [x] => x
  | x :: l' => x ++ sep ++ join sep l'
  end.

(** [repr] of each item, in order. *)
Fixpoint reprs `{Runtime W} (items : list value) : M (state W) (list string) :=
  match items with
  | [] => ret []
  | x :: rest =>
      r <- repr x;;
      rs <- reprs rest;;
      ret (r :: rs)
  end.

(** How a tuple is displayed, given the [repr] of its items. *)
Definition tuple_display (rs : list string) : string :=
  match rs with
  | [r] => "(" ++ r ++ ",)"
  | _ => "(" ++ join ", " rs ++ ")"
  end.

(** [str(t)] of a tuple. *)
Definition tuple_str `{Runtime W} (items : list value) : M (state W) string :=
  rs <- reprs items;;
  ret (tuple_display rs).

(** What [%s] puts in a string for [v], that is [str(v)]. *)
Definition format_s `{Runtime W} (v : value) : M (state W) string :=
  match v with
  | VStr s => ret s
  | VNone => ret "None"
  | VTuple items => tuple_str items
  | _ => str v
  end.

(** [o.name(args)] *)
Definition method_call `{Runtime W} (o : value) (name : string)
    (args : list value) : M (state W) value :=
  m <- getattr o name;;
  call m args.

(** [v.strip()] *)
Definition str_strip `{Runtime W} (v : value) : M (state W) value :=
  match v with
  | VStr s => ret (VStr (strip s))
  | _ => method_call v "strip" []
  end.

(** [v.split("\n")[0]]; the value model has no sequences other than
    tuples and strings, so nothing else can be subscripted. *)
Definition str_split_first `{Runtime W} (v : value) : M (state W) value :=
  match v with
  | VStr s => ret (VStr (first_line s))
  | _ =>
      parts <- method_call v "split" [VStr (String newline "")];;
      match parts with
      | VTuple (x :: _) => ret x
      | VStr (String c _) => ret (VStr (String c ""))
      | VTuple [] =>
          raise (Exn (UserDefined "IndexError" [Builtin Exception])
                   "tuple index out of range")
      | VStr EmptyString =>
          raise (Exn (UserDefined "IndexError" [Builtin Exception])
                   "string index out of range")
      | _ => raise (Exn (Builtin TypeError) "object is not subscriptable")
      end
  end.

(** The name by which a function is displayed: [func.compat_func_name]
    if it has one, else [func.__name__] (the [if hasattr] statement of
    both [__str__] methods below). *)
Definition compat_name `{Runtime W} (func : value) : M (state W) value :=
  try_except_else (getattr func "compat_func_name")
    [(AttributeError, fun _ => getattr func "__name__")]
    (fun _ => getattr func "compat_func_name").

(** ** class Test: the universal test case wrapper *)
Module Test.

Section Wrapper.
Context {W : Type} `{rt : Runtime W}.

Abbreviation Run := (M (state W)).

(** The instance attributes [Test.__init__] sets; [this] is the object
    itself, as it is handed to the collaborators. *)
Record t := Make {
  this : value;
  test : value;
  config : value;
  tbinfo : value;
  capturedOutput : value;
  resultProxy : value;
  plugins : value;
  passed : value
}.

Definition not_callable_pre : string := "nose.case.Test called with argument ".
Definition not_callable_post : string :=
  " that is not callable. A callable is required.".

(** [Test.__init__(self, test, config=None, resultProxy=None)].
    [unittest.TestCase.__init__(self)] looks up the default method name
    [runTest], which this class defines, and returns. *)
Definition __init__ (self : ref) (test config resultProxy : value) : Run t :=
  if negb (isCallable test) then
    msg <- percent_r not_callable_pre not_callable_post test;;
    raise (Exn (Builtin TypeError) msg)
  else
    config <- (if is_None config then call rt_Config [] else ret config);;
    plugins <- getattr config "plugins";;
    ret {| this := VObj self; test := test; config := config;
           tbinfo := VNone; capturedOutput := VNone;
           resultProxy := resultProxy; plugins := plugins;
           passed := VNone |}.

(** [Test.__str__] *)
Definition __str__ (self : t) : Run string :=
  testName <- getattr (plugins self) "testName";;
  name <- call testName [this self];;
  if negb (is_None name) then
    match name with
    | VStr name => ret name
    | _ => raise (Exn (Builtin TypeError) "__str__ returned non-string")
    end
  else str (test self).

(** [Test.afterTest]: called after test is complete. *)
Definition afterTest (self : t) (result : value) : Run unit :=
  try_except_else (getattr result "afterTest")
    [(AttributeError, fun _ => ret tt)]
    (fun afterTest =>
       emit (EvAfterTest result (test self));;;
       _ <- call afterTest [test self];;
       ret tt).

(** [Test.beforeTest]: called before test is run. *)
Definition beforeTest (self : t) (result : value) : Run unit :=
  try_except_else (getattr result "beforeTest")
    [(AttributeError, fun _ => ret tt)]
    (fun beforeTest =>
       emit (EvBeforeTest result (test self));;;
       _ <- call beforeTest [test self];;
       ret tt).

(** [Test.address] *)
Definition address (self : t) : Run value :=
  try_except_else (getattr (test self) "address")     (* hasattr *)
    [(AttributeError, fun _ => call rt_test_address [test self])]
    (fun _ =>
       address <- getattr (test self) "address";;
       call address []).

(** [Test._context], the getter of the property [context]. Each [try]
    statement yields [Some v] when its [return v] ran, [None] when control
    falls through to the next statement. *)
Definition _context (self : t) : Run value :=
  r <- try_except (v <- getattr (test self) "context";; ret (Some v))
         [(AttributeError, fun _ => ret None)];;
  match r with
  | Some v => ret v
  | None =>
  r <- try_except (v <- getattr (test self) "__class__";; ret (Some v))
         [(AttributeError, fun _ => ret None)];;
  match r with
  | Some v => ret v
  | None =>
  r <- try_except
         (m <- getattr (test self) "__module__";;
          v <- call rt_resolve_name [m];;
          ret (Some v))
         [(AttributeError, fun _ => ret None)];;
  match r with
  | Some v => ret v
  | None => ret VNone
  end end end.

(** [context = property(_context, None, None, ...)]: reading the attribute
    calls the getter. *)
Definition context (self : t) : Run value := _context self.

(** [Test.runTest] *)
Definition runTest (self : t) (result : value) : Run unit :=
  let test0 := test self in
  plugins <- getattr (config self) "plugins";;
  prepareTestCase <- getattr plugins "prepareTestCase";;
  emit (EvPrepareTestCase plugins (this self));;;
  plug_test <- call prepareTestCase [this self];;
  let test1 := if negb (is_None plug_test) then plug_test else test0 in
  emit (EvTest test1 result);;;
  _ <- call test1 [result];;
  ret tt.

(** The first statement of [Test.run]: [if self.resultProxy: result =
    self.resultProxy(result, self)]. *)
Definition proxied (self : t) (result : value) : Run value :=
  if truth (resultProxy self) then
    emit (EvResultProxy (resultProxy self) result (this self));;;
    call (resultProxy self) [result; this self]
  else ret result.

(** The inner [try] statement of [Test.run], with its two clauses. *)
Definition guarded (self : t) (result : value) : Run unit :=
  try_except
    (beforeTest self result;;;
     runTest self result)
    [(KeyboardInterrupt, fun e => raise e);
     (Exception, fun e =>
        let err := VExcInfo e in
        addError <- getattr result "addError";;
        emit (EvAddError result (this self) err);;;
        _ <- call addError [this self; err];;
        ret tt)].

(** [Test.run]: modified run for the test wrapper. *)
Definition run (self : t) (result : value) : Run unit :=
  result <- proxied self result;;
  try_finally (guarded self result) (afterTest self result).

(** The first [try] statement of [Test.shortDescription]: strip the
    documentation string the wrapped test keeps. *)
Definition strip_doc (test : value) (attr : string) : Run unit :=
  doc <- getattr test attr;;
  strip <- getattr doc "strip";;
  doc <- call strip [];;
  setattr test attr doc.

Definition strip_testMethodDoc (test : value) : Run unit :=
  try_except (strip_doc test "_testMethodDoc")
    [(AttributeError, fun _ =>
        try_except (strip_doc test "_TestCase__testMethodDoc")
          [(AttributeError, fun _ => ret tt)])].

(** [Test.shortDescription] *)
Definition shortDescription (self : t) : Run value :=
  describeTest <- getattr (plugins self) "describeTest";;
  desc <- call describeTest [this self];;
  if negb (is_None desc) then ret desc else
  let test := test self in
  strip_testMethodDoc test;;;
  desc <- try_except
            (shortDescription <- getattr test "shortDescription";;
             call shortDescription [])
            [(Exception, fun _ => ret desc)];;
  r <- try_except
         (s <- str test;;
          if eq_str desc s then ret (Some VNone) else ret None)
         [(Exception, fun _ => ret None)];;
  match r with
  | Some v => ret v
  | None => ret desc
  end.

(** [Test.__call__] *)
Definition __call__ (self : t) (result : value) : Run unit := run self result.

(** [Test.__repr__]: ["Test(%r)" % self.test] *)
Definition __repr__ (self : t) : Run string :=
  percent_r "Test(" ")" (test self).

(** [Test.id] *)
Definition id (self : t) : Run value := method_call (test self) "id" [].

(** The reading of [context] that the specification gives: the first of
    the candidates that resolves, a candidate that raises [AttributeError]
    being one that does not; [None] when none does. *)
Fixpoint first_resolved (candidates : list (Run value)) : Run value :=
  match candidates with
  | [] => ret VNone
  | c :: rest =>
      fun s =>
        match c s with
        | (Ok v, s1) => (Ok v, s1)
        | (Raise e, s1) =>
            if isinstance e AttributeError then first_resolved rest s1
            else (Raise e, s1)
        end
  end.

Definition context_candidates (self : t) : list (Run value) :=
  [ getattr (test self) "context";
    getattr (test self) "__class__";
    (m <- getattr (test self) "__module__";; call rt_resolve_name [m]) ].

(** Two reads of [context] with other code in between. *)
Definition read_twice (self : t) (between : Run unit) : Run (value * value) :=
  x <- context self;;
  between;;;
  y <- context self;;
  ret (x, y).

(** What a memoized [context] would guarantee: the second read returns
    what the first one did. *)
Definition memoized (self : t) : Prop :=
  ∀ between s x y s',
    read_twice self between s = (Ok (x, y), s') → x = y.

End Wrapper.
End Test.

(** ** class TestBase: what FunctionTestCase and MethodTestCase share

    The methods take what they read of [self]: the attribute [test], the
    result of [_descriptors()] and the string form [str(self)] of the
    subclass. *)
Module TestBase.
Section Base.
Context {W : Type} `{rt : Runtime W}.

Abbreviation Run := (M (state W)).

(** [TestBase.id] *)
Definition id (str_self : Run string) : Run string := str_self.

(** [doc.strip().split("\n")[0].strip()] *)
Definition summary (doc : value) : Run value :=
  d <- str_strip doc;;
  l <- str_split_first d;;
  str_strip l.

(** [TestBase.shortDescription] *)
Definition shortDescription (test : value) (descriptors : value * value)
    (str_self : Run string) : Run value :=
  try_except_else (getattr test "description")      (* hasattr *)
    [(AttributeError, fun _ =>
        let '(func, arg) := descriptors in
        doc <- try_except (getattr func "__doc__")
                 [(AttributeError, fun _ => ret VNone)];;
        doc <- (if negb (truth doc) then
                  s <- str_self;; ret (VStr s)
                else ret doc);;
        summary doc)]
    (fun _ => getattr test "description").

End Base.
End TestBase.

(** ** class FunctionTestCase: wrapper for test functions *)
Module FunctionTestCase.

Record t := Make {
  test : value;
  setUpFunc : value;
  tearDownFunc : value;
  arg : value;
  descriptor : value
}.

Section Case.
Context {W : Type} `{rt : Runtime W}.

Abbreviation Run := (M (state W)).

(** [FunctionTestCase.__init__(self, test, setUp=None, tearDown=None,
    arg=tuple(), descriptor=None)]; [TestBase.__init__] is that of
    [unittest.TestCase] and returns. *)
Definition __init__ (test setUp tearDown arg descriptor : value) : t :=
  {| test := test; setUpFunc := setUp; tearDownFunc := tearDown;
     arg := arg; descriptor := descriptor |}.

(** [FunctionTestCase.address] *)
Definition address (self : t) : Run value :=
  if negb (is_None (descriptor self)) then
    call rt_test_address [descriptor self]
  else
    call rt_test_address [test self].

(** [FunctionTestCase._context] *)
Definition _context (self : t) : Run value :=
  m <- getattr (test self) "__module__";;
  call rt_resolve_name [m].

(** [FunctionTestCase._descriptors] *)
Definition _descriptors (self : t) : value * value :=
  if truth (descriptor self) then (descriptor self, arg self)
  else (test self, arg self).

(** [FunctionTestCase.__str__] *)
Definition __str__ (self : t) : Run string :=
  let '(func, arg) := _descriptors self in
  name <- compat_name func;;
  module <- getattr func "__module__";;
  m <- format_s module;;
  n <- format_s name;;
  let name := m ++ "." ++ n in
  if truth arg then
    a <- format_s arg;;
    ret (name ++ a)
  else ret name.

(** [__repr__ = __str__] *)
Definition __repr__ (self : t) : Run string := __str__ self.

(** Inherited from [TestBase]. *)
Definition id (self : t) : Run string := TestBase.id (__str__ self).

Definition shortDescription (self : t) : Run value :=
  TestBase.shortDescription (test self) (_descriptors self) (__str__ self).

End Case.
End FunctionTestCase.

(** ** class MethodTestCase: wrapper for test methods *)
Module MethodTestCase.

(** An instance of a user class: its class, and which dictionary is its
    [__dict__]. A dictionary is an object of its own, and two instances
    can have the same one. *)
Record instance := Instance {
  inst_class : classdef;
  inst_dict : ref
}.

(** The live instances and the dictionaries, each by identity. *)
Record heap := Heap {
  objects : gmap ref instance;
  dicts : gmap ref (gmap string value)
}.

(** [vars(o)]: what the dictionary of a live instance holds. *)
Definition attrs (h : heap) (r : ref) : option (gmap string value) :=
  match objects h !! r with
  | Some i => dicts h !! inst_dict i
  | None => None
  end.

(** What the instance itself holds under [name]. *)
Definition own_attr (h : heap) (r : ref) (name : string) : option value :=
  match attrs h r with
  | Some d => d !! name
  | None => None
  end.

Record t := Make {
  method : value;
  test : value;
  arg : value;
  descriptor : value;
  cls : classdef;
  inst : ref
}.

Definition isfunction (v : value) : bool :=
  match v with VFunction _ => true | _ => false end.

Definition unbound_msg : string :=
  "Unbound methods must be wrapped using pyversion.unbound_method before passing to MethodTestCase".

Definition no_attribute (name : string) : exn :=
  Exn (Builtin AttributeError) ("object has no attribute '" ++ name ++ "'").

(** [h] with a new instance [r] of [c] whose dictionary is the new
    dictionary [k], holding [d]. *)
Definition allocated (h : heap) (r : ref) (c : classdef) (k : ref)
    (d : gmap string value) : heap :=
  {| objects := <[r := Instance c k]> (objects h);
     dicts := <[k := d]> (dicts h) |}.

(** The call [C()] of a class that leaves allocation to [object]: a new
    object, distinct from every live one, with a dictionary of its own
    that holds what [C.__init__(self)] sets ([construct C]); or the
    exception of a constructor that cannot be called without arguments. *)
Definition new (construct : classdef → outcome (gmap string value))
    (c : classdef) : M heap ref :=
  fun h =>
    match construct c with
    | Ok d =>
        let r := fresh (dom (objects h)) in
        let k := fresh (dom (dicts h)) in
        (Ok r, allocated h r c k d)
    | Raise e => (Raise e, h)
    end.

(** [allocates instantiate C]: calling [C] makes a new instance of [C]
    with a new dictionary, and changes nothing else. *)
Definition allocates (instantiate : classdef → M heap ref) (c : classdef)
    : Prop :=
  ∀ h r h',
    instantiate c h = (Ok r, h') →
    ∃ k d, (r ∉ dom (objects h)) ∧ (k ∉ dom (dicts h))
           ∧ h' = allocated h r c k d.

Section Case.

(** What the call [C()] of a user class does: [__new__] and [__init__]
    are the class's own, so the call may return any object, a live one
    too, change other objects, or raise. *)
Variable instantiate : classdef → M heap ref.

(** [method.__self__]: only method objects carry it. *)
Definition get___self__ (method : value) : M heap ref :=
  match method with
  | VMethod r _ => ret r
  | _ => raise (no_attribute "__self__")
  end.

(** [o.__class__] of a live instance. *)
Definition get___class__ (r : ref) : M heap classdef :=
  fun h =>
    match objects h !! r with
    | Some i => (Ok (inst_class i), h)
    | None => (Raise (no_attribute "__class__"), h)
    end.

(** [method.__name__] *)
Definition get___name__ (method : value) : M heap string :=
  match method with
  | VMethod _ f | VFunction f => ret (fn_name f)
  | VClass c => ret (cls_name c)
  | _ => raise (no_attribute "__name__")
  end.

(** [getattr(inst, name)]: the instance [__dict__] first, then the
    functions of the class, bound to the instance. *)
Definition getattr_inst (r : ref) (name : string) : M heap value :=
  fun h =>
    match objects h !! r with
    | None => (Raise (no_attribute name), h)
    | Some i =>
        match own_attr h r name with
        | Some v => (Ok v, h)
        | None =>
            match List.find (fun f => String.eqb (fn_name f) name)
                    (cls_methods (inst_class i)) with
            | Some f => (Ok (VMethod r f), h)
            | None => (Raise (no_attribute name), h)
            end
        end
    end.

(** [inst.name = v], as a test body does on its [self]: an entry of the
    dictionary of the instance. *)
Definition setattr_inst (r : ref) (name : string) (v : value) : M heap unit :=
  fun h =>
    match objects h !! r with
    | None => (Raise (no_attribute name), h)
    | Some i =>
        (Ok tt,
         {| objects := objects h;
            dicts := <[inst_dict i :=
                         <[name := v]> (default ∅ (dicts h !! inst_dict i))]>
                       (dicts h) |})
    end.

(** A test body that assigns attributes of its [self], one after the
    other. *)
Fixpoint assign_all (r : ref) (body : list (string * value)) : M heap unit :=
  match body with
  | [] => ret tt
  | (name, v) :: body' => setattr_inst r name v;;; assign_all r body'
  end.

(** [MethodTestCase.__init__(self, method, test=None, arg=tuple(),
    descriptor=None)] *)
Definition __init__ (method test arg descriptor : value) : M heap t :=
  if isfunction method then
    raise (Exn (Builtin ValueError) unbound_msg)
  else
    self_ <- get___self__ method;;
    cls <- get___class__ self_;;
    inst <- instantiate cls;;
    test <- (if is_None test then
               method_name <- get___name__ method;;
               getattr_inst inst method_name
             else ret test);;
    ret {| method := method; test := test; arg := arg;
           descriptor := descriptor; cls := cls; inst := inst |}.

(** [MethodTestCase._context] *)
Definition _context (self : t) : classdef := cls self.

(** [MethodTestCase._descriptors] *)
Definition _descriptors (self : t) : value * value :=
  if truth (descriptor self) then (descriptor self, arg self)
  else (method self, arg self).

End Case.

Section Naming.
Context {W : Type} `{rt : Runtime W}.

Abbreviation Run := (M (state W)).

(** [MethodTestCase.__str__] *)
Definition __str__ (self : t) : Run string :=
  let '(func, arg) := _descriptors self in
  name <- compat_name func;;
  n <- format_s name;;
  let name := cls_module (cls self) ++ "." ++ cls_name (cls self) ++ "." ++ n in
  if truth arg then
    a <- format_s arg;;
    ret (name ++ a)
  else ret name.

(** [__repr__ = __str__] *)
Definition __repr__ (self : t) : Run string := __str__ self.

(** [MethodTestCase.address] *)
Definition address (self : t) : Run value :=
  if negb (is_None (descriptor self)) then
    call rt_test_address [descriptor self]
  else
    call rt_test_address [method self].

(** Inherited from [TestBase]. *)
Definition id (self : t) : Run string := TestBase.id (__str__ self).

Definition shortDescription (self : t) : Run value :=
  TestBase.shortDescription (test self) (_descriptors self) (__str__ self).

End Naming.
End MethodTestCase.

(** ** A concrete set of collaborators

    One result collector, one wrapped test, one plugin manager and one
    result-proxy factory, whose behaviour is read from the scene they act
    on. The examples below run the wrappers against them. *)
Module Example.

Definition result : value := VObj 1.
Definition result_addError : value := VObj 2.
Definition result_beforeTest : value := VObj 3.
Definition result_afterTest : value := VObj 4.
Definition the_test : value := VObj 5.
Definition plugin_manager : value := VObj 6.
Definition plugins_prepareTestCase : value := VObj 7.
Definition plugins_describeTest : value := VObj 8.
Definition plugins_testName : value := VObj 9.
Definition the_config : value := VObj 10.
Definition proxy_factory : value := VObj 11.
Definition test_shortDescription : value := VObj 12.
Definition Config : value := VObj 14.
Definition test_address : value := VObj 15.
Definition resolve_name : value := VObj 16.

Definition test_class : classdef :=
  Class "tests.test_mod" "TestThing" [Func "tests.test_mod" "test_it"].

Record scene := Scene {
  w_proxy : outcome value;           (* self.resultProxy(result, self) *)
  w_before : option (outcome value); (* result.beforeTest, when present *)
  w_test : outcome value;            (* test(result) *)
  w_addError : outcome value;        (* result.addError(test, err) *)
  w_after : option (outcome value);  (* result.afterTest, when present *)
  w_describe : value;                (* plugins.describeTest(test) *)
  w_testName : value;                (* plugins.testName(test) *)
  w_shortDescription : outcome value;(* test.shortDescription() *)
  w_str : string;                    (* str(test) *)
  w_context : option value;          (* test.context, when set *)
  w_errors : list value              (* what addError has collected *)
}.

Definition missing (name : string) : exn :=
  Exn (Builtin AttributeError) ("no attribute " ++ name).

Definition lookup (o : value) (name : string) (w : scene) : outcome value :=
  match o with
  | VObj 1 =>
      if String.eqb name "addError" then Ok result_addError
      else if String.eqb name "beforeTest" then
        match w_before w with
        | Some _ => Ok result_beforeTest
        | None => Raise (missing name)
        end
      else if String.eqb name "afterTest" then
        match w_after w with
        | Some _ => Ok result_afterTest
        | None => Raise (missing name)
        end
      else Raise (missing name)
  | VObj 5 =>
      if String.eqb name "context" then
        match w_context w with
        | Some v => Ok v
        | None => Raise (missing name)
        end
      else if String.eqb name "__class__" then Ok (VClass test_class)
      else if String.eqb name "__module__" then Ok (VStr "tests.test_mod")
      else if String.eqb name "shortDescription" then Ok test_shortDescription
      else Raise (missing name)
  | VObj 6 =>
      if String.eqb name "prepareTestCase" then Ok plugins_prepareTestCase
      else if String.eqb name "describeTest" then Ok plugins_describeTest
      else if String.eqb name "testName" then Ok plugins_testName
      else Raise (missing name)
  | VObj 10 =>
      if String.eqb name "plugins" then Ok plugin_manager
      else Raise (missing name)
  | _ => Raise (missing name)
  end.

Definition collect (args : list value) (w : scene) : scene :=
  {| w_proxy := w_proxy w; w_before := w_before w; w_test := w_test w;
     w_addError := w_addError w; w_after := w_after w;
     w_describe := w_describe w; w_testName := w_testName w;
     w_shortDescription := w_shortDescription w; w_str := w_str w;
     w_context := w_context w; w_errors := args ++ w_errors w |}.

Definition set_context (v : value) (w : scene) : scene :=
  {| w_proxy := w_proxy w; w_before := w_before w; w_test := w_test w;
     w_addError := w_addError w; w_after := w_after w;
     w_describe := w_describe w; w_testName := w_testName w;
     w_shortDescription := w_shortDescription w; w_str := w_str w;
     w_context := Some v; w_errors := w_errors w |}.

Definition not_callable : exn :=
  Exn (Builtin TypeError) "object is not callable".

Definition address_of (v : value) : value :=
  match v with
  | VFunction f =>
      VTuple [VStr ("/src/" ++ fn_module f); VStr (fn_module f);
              VStr (fn_name f)]
  | _ => VTuple [VNone; VNone; VNone]
  end.

Definition apply (f : value) (args : list value) (w : scene)
    : outcome value * scene :=
  match f with
  | VObj 2 => (w_addError w, collect args w)
  | VObj 3 =>
      match w_before w with Some o => (o, w) | None => (Raise not_callable, w) end
  | VObj 4 =>
      match w_after w with Some o => (o, w) | None => (Raise not_callable, w) end
  | VObj 5 => (w_test w, w)
  | VObj 7 => (Ok VNone, w)
  | VObj 8 => (Ok (w_describe w), w)
  | VObj 9 => (Ok (w_testName w), w)
  | VObj 11 => (w_proxy w, w)
  | VObj 12 => (w_shortDescription w, w)
  | VObj 14 => (Ok the_config, w)
  | VObj 15 =>
      match args with
      | [v] => (Ok (address_of v), w)
      | _ => (Raise not_callable, w)
      end
  | VObj 16 => (Ok (VObj 17), w)
  | _ => (Raise not_callable, w)
  end.

Definition store (o : value) (name : string) (v : value) (w : scene)
    : outcome unit * scene :=
  match o with
  | VObj 5 =>
      if String.eqb name "context" then (Ok tt, set_context v w)
      else (Raise (missing name), w)
  | _ => (Raise (missing name), w)
  end.

Definition repr (v : value) : string :=
  match v with
  | VNone => "None"
  | VStr s => "'" ++ s ++ "'"
  | _ => "<object>"
  end.

#[global] Instance runtime : Runtime scene := {
  rt_getattr o name w := (lookup o name w, w);
  rt_setattr := store;
  rt_call := apply;
  rt_str o w := (Ok (w_str w), w);
  rt_repr v w := (Ok (repr v), w);
  rt_callable r := bool_decide (r ∈ [2; 3; 4; 5; 7; 8; 9; 11; 12; 14; 15; 16]);
  rt_tuple_items _ := None;
  rt_Config := Config;
  rt_resolve_name := resolve_name;
  rt_test_address := test_address
}.

(** A scene where every collaborator returns [None] and both hooks are
    present, and the ways the examples depart from it. *)
Definition calm : scene :=
  {| w_proxy := Ok result; w_before := Some (Ok VNone); w_test := Ok VNone;
     w_addError := Ok VNone; w_after := Some (Ok VNone);
     w_describe := VNone; w_testName := VNone;
     w_shortDescription := Ok VNone; w_str := "test_it (tests.test_mod.TestThing)";
     w_context := None; w_errors := [] |}.

Definition failing_test (e : exn) : scene :=
  {| w_proxy := Ok result; w_before := Some (Ok VNone); w_test := Raise e;
     w_addError := Ok VNone; w_after := Some (Ok VNone);
     w_describe := VNone; w_testName := VNone;
     w_shortDescription := Ok VNone; w_str := w_str calm;
     w_context := None; w_errors := [] |}.

Definition failing_before (e : exn) : scene :=
  {| w_proxy := Ok result; w_before := Some (Raise e); w_test := Ok VNone;
     w_addError := Ok VNone; w_after := Some (Ok VNone);
     w_describe := VNone; w_testName := VNone;
     w_shortDescription := Ok VNone; w_str := w_str calm;
     w_context := None; w_errors := [] |}.

Definition failing_proxy (e : exn) : scene :=
  {| w_proxy := Raise e; w_before := Some (Ok VNone); w_test := Ok VNone;
     w_addError := Ok VNone; w_after := Some (Ok VNone);
     w_describe := VNone; w_testName := VNone;
     w_shortDescription := Ok VNone; w_str := w_str calm;
     w_context := None; w_errors := [] |}.

Definition failing_report (e e' : exn) : scene :=
  {| w_proxy := Ok result; w_before := Some (Ok VNone); w_test := Raise e;
     w_addError := Raise e'; w_after := Some (Ok VNone);
     w_describe := VNone; w_testName := VNone;
     w_shortDescription := Ok VNone; w_str := w_str calm;
     w_context := None; w_errors := [] |}.

Definition without_hooks (e : exn) : scene :=
  {| w_proxy := Ok result; w_before := None; w_test := Raise e;
     w_addError := Ok VNone; w_after := None;
     w_describe := VNone; w_testName := VNone;
     w_shortDescription := Ok VNone; w_str := w_str calm;
     w_context := None; w_errors := [] |}.

Definition interrupted_failing_after (e e' : exn) : scene :=
  {| w_proxy := Ok result; w_before := Some (Ok VNone); w_test := Raise e;
     w_addError := Ok VNone; w_after := Some (Raise e');
     w_describe := VNone; w_testName := VNone;
     w_shortDescription := Ok VNone; w_str := w_str calm;
     w_context := None; w_errors := [] |}.

Definition described (plugin_desc own_desc : value) (name : value)
    (s : string) : scene :=
  {| w_proxy := Ok result; w_before := Some (Ok VNone); w_test := Ok VNone;
     w_addError := Ok VNone; w_after := Some (Ok VNone);
     w_describe := plugin_desc; w_testName := name;
     w_shortDescription := Ok own_desc; w_str := s;
     w_context := None; w_errors := [] |}.

Definition with_context (v : value) : scene := set_context v calm.

(** The wrapper around [the_test], without and with a result proxy. *)
Definition adapter : Test.t :=
  {| Test.this := VObj 20; Test.test := the_test; Test.config := the_config;
     Test.tbinfo := VNone; Test.capturedOutput := VNone;
     Test.resultProxy := VNone; Test.plugins := plugin_manager;
     Test.passed := VNone |}.

Definition proxied_adapter : Test.t :=
  {| Test.this := VObj 20; Test.test := the_test; Test.config := the_config;
     Test.tbinfo := VNone; Test.capturedOutput := VNone;
     Test.resultProxy := proxy_factory; Test.plugins := plugin_manager;
     Test.passed := VNone |}.

Definition start (w : scene) : state scene := State w [].

Definition value_error : exn := Exn (Builtin ValueError) "boom".
Definition system_exit : exn := Exn (Builtin SystemExit) "0".
Definition interrupt : exn := Exn (Builtin KeyboardInterrupt) "".
Definition assertion_error : exn := Exn (Builtin AssertionError) "1 != 2".

(** A user class with one test method, and a live instance of it. *)
Definition test_it : funcdef := Func "tests.test_mod" "test_it".

Definition construct (c : classdef) : outcome (gmap string value) :=
  if String.eqb (cls_name c) "TestThing" then Ok {[ "seen" := VNone ]}
  else Raise (Exn (Builtin TypeError)
                "__init__() missing 1 required positional argument").

(** Instance 0 with its dictionary 0, which is empty. *)
Definition loaded : MethodTestCase.heap :=
  {| MethodTestCase.objects := {[ 0 := MethodTestCase.Instance test_class 0 ]};
     MethodTestCase.dicts := {[ 0 := ∅ ]} |}.

(** A class that keeps one instance to itself: its [__new__] returns the
    instance the class already has (object 0 of [loaded]). *)
Definition shared (c : classdef) : M MethodTestCase.heap ref := ret 0.

(** A class whose instances are new objects with one state: its
    [__init__] sets [self.__dict__] to the dictionary of the class
    (dictionary 0 of [loaded]). *)
Definition one_state (c : classdef) : M MethodTestCase.heap ref :=
  fun h =>
    let r := fresh (dom (MethodTestCase.objects h)) in
    (Ok r,
     {| MethodTestCase.objects :=
          <[r := MethodTestCase.Instance c 0]> (MethodTestCase.objects h);
        MethodTestCase.dicts := MethodTestCase.dicts h |}).

Definition method0 : value := VMethod 0 test_it.

(** The case [MethodTestCase(method0)] whose new instance is [r]. *)
Definition case_on (r : ref) : MethodTestCase.t :=
  {| MethodTestCase.method := method0;
     MethodTestCase.test := VMethod r test_it;
     MethodTestCase.arg := VTuple [];
     MethodTestCase.descriptor := VNone;
     MethodTestCase.cls := test_class;
     MethodTestCase.inst := r |}.

(** A generated test: the function that runs, and the generator that
    names it. *)
Definition check : value := VFunction (Func "tests.gen" "check").
Definition test_generator : value :=
  VFunction (Func "tests.gen" "test_generator").

End Example.

(** ** Collaborators given by tables

    Objects by identity with the attributes, the call results and the
    string forms a table lists for them; functions and methods with their
    [__name__] and [__module__], and whatever else the table gives them
    under their name. *)
Module Tables.

Record tables := Tables {
  obj_attrs : list (nat * string * outcome value);      (* o.name *)
  fun_attrs : list (string * string * outcome value);   (* f.name *)
  obj_calls : list (nat * outcome value);               (* o(...) *)
  obj_strs : list (nat * string)                        (* str(o) *)
}.

Definition missing (name : string) : exn :=
  Exn (Builtin AttributeError) ("no attribute " ++ name).

Definition not_callable : exn :=
  Exn (Builtin TypeError) "object is not callable".

Fixpoint assoc2 {A B C} (eqa : A → A → bool) (eqb : B → B → bool)
    (a : A) (b : B) (l : list (A * B * C)) : option C :=
  match l with
  | [] => None
  | (a', b', c) :: l' =>
      if eqa a' a && eqb b' b then Some c else assoc2 eqa eqb a b l'
  end.

Fixpoint assoc1 {C} (a : nat) (l : list (nat * C)) : option C :=
  match l with
  | [] => None
  | (a', c) :: l' => if Nat.eqb a' a then Some c else assoc1 a l'
  end.

Definition fun_attr (f : funcdef) (name : string) (w : tables)
    : outcome value :=
  if String.eqb name "__name__" then Ok (VStr (fn_name f))
  else if String.eqb name "__module__" then Ok (VStr (fn_module f))
  else match assoc2 String.eqb String.eqb (fn_name f) name (fun_attrs w) with
       | Some o => o
       | None => Raise (missing name)
       end.

Definition lookup (o : value) (name : string) (w : tables) : outcome value :=
  match o with
  | VObj r =>
      match assoc2 Nat.eqb String.eqb r name (obj_attrs w) with
      | Some o => o
      | None => Raise (missing name)
      end
  | VFunction f | VMethod _ f => fun_attr f name w
  | _ => Raise (missing name)
  end.

Definition store (o : value) (name : string) (v : value) (w : tables)
    : outcome unit * tables :=
  match o with
  | VObj r =>
      (Ok tt,
       {| obj_attrs := (r, name, Ok v) :: obj_attrs w;
          fun_attrs := fun_attrs w; obj_calls := obj_calls w;
          obj_strs := obj_strs w |})
  | _ => (Raise (missing name), w)
  end.

Definition address_of (v : value) : value :=
  match v with
  | VFunction f | VMethod _ f =>
      VTuple [VStr ("/src/" ++ fn_module f); VStr (fn_module f);
              VStr (fn_name f)]
  | _ => VTuple [VNone; VNone; VNone]
  end.

(** Object 15 is [test_address]. *)
Definition apply (f : value) (args : list value) (w : tables)
    : outcome value :=
  match f with
  | VObj 15 =>
      match args with
      | [v] => Ok (address_of v)
      | _ => Raise not_callable
      end
  | VObj r =>
      match assoc1 r (obj_calls w) with
      | Some o => o
      | None => Raise not_callable
      end
  | _ => Raise not_callable
  end.

Definition str_of (o : value) (w : tables) : outcome string :=
  match o with
  | VObj r =>
      match assoc1 r (obj_strs w) with
      | Some s => Ok s
      | None => Ok "<object>"
      end
  | _ => Ok "<object>"
  end.

Definition repr (v : value) : string :=
  match v with
  | VNone => "None"
  | VStr s => "'" ++ s ++ "'"
  | _ => "<object>"
  end.

(** Object 60 has a [__repr__] that raises; object 50 is a callable
    instance of a class derived from [tuple], with two items. *)
Definition repr_of (v : value) : outcome string :=
  match v with
  | VObj 60 => Raise (Exn (Builtin ValueError) "no repr")
  | _ => Ok (repr v)
  end.

Definition runtime : Runtime tables := {|
  rt_getattr o name w := (lookup o name w, w);
  rt_setattr := store;
  rt_call f args w := (apply f args w, w);
  rt_str o w := (str_of o w, w);
  rt_repr v w := (repr_of v, w);
  rt_callable r := Nat.eqb r 15 || Nat.eqb r 50;
  rt_tuple_items r := if Nat.eqb r 50 then Some [VStr "a"; VStr "b"] else None;
  rt_Config := VObj 14;
  rt_resolve_name := VObj 16;
  rt_test_address := VObj 15
|}.

Definition start (w : tables) : state tables := State w [].

Definition no_tables : tables := Tables [] [] [] [].

(** A generated test and its generator. *)
Definition check : funcdef := Func "tests.gen" "check".
Definition test_evens : funcdef := Func "tests.gen" "test_evens".

(** The documentation of [test_evens]. *)
Definition evens_doc : string :=
  String newline "    Even numbers stay even.  "
  ++ String newline "    More about it."
  ++ String newline "    ".

Definition documented : tables :=
  Tables [] [("test_evens", "__doc__", Ok (VStr evens_doc));
             ("check", "__doc__", Ok VNone)] [] [].

(** [check] carries a [description], as a generator can give it. *)
Definition described : tables :=
  Tables [] [("check", "description", Ok (VStr " checks 2 "));
             ("test_evens", "__doc__", Ok (VStr evens_doc))] [] [].

(** [test_evens] was wrapped by a decorator that kept its first name. *)
Definition decorated : tables :=
  Tables [] [("test_evens", "compat_func_name", Ok (VStr "test_evens_orig"))]
    [] [].

(** A wrapped test (object 5) whose documentation is an object (30) with
    a [strip] (31) that cannot be called, and whose [context] raises. *)
Definition awkward : tables :=
  Tables [(5, "_testMethodDoc", Ok (VObj 30)); (30, "strip", Ok (VObj 31));
          (5, "context", Raise (Exn (Builtin ValueError) "no context"))]
    [] [] [].

(** The same test with plugins (object 6) that describe nothing. *)
Definition awkward_undescribed : tables :=
  Tables [(6, "describeTest", Ok (VObj 8));
          (5, "_testMethodDoc", Ok (VObj 30)); (30, "strip", Ok (VObj 31))]
    [] [(8, Ok VNone)] [].

(** The plugin manager (object 6 of the configuration 10) substitutes
    object 40 for the test. *)
Definition substituting : tables :=
  Tables [(10, "plugins", Ok (VObj 6)); (6, "prepareTestCase", Ok (VObj 7))]
    [] [(7, Ok (VObj 40)); (40, Ok VNone)] [].

(** The plugins describe nothing, and the wrapped test (object 5) has no
    [shortDescription]. *)
Definition undescribed : tables :=
  Tables [(6, "describeTest", Ok (VObj 8))] [] [(8, Ok VNone)]
    [(5, "test_it")].

(** A function case for the generated test, with and without arguments,
    and one that runs something else for the same generator. *)
Definition generated (args : list value) : FunctionTestCase.t :=
  FunctionTestCase.__init__ (VFunction check) VNone VNone (VTuple args)
    (VFunction test_evens).

Definition plain : FunctionTestCase.t :=
  FunctionTestCase.__init__ (VFunction check) VNone VNone (VTuple []) VNone.

End Tables.

(** * Properties of the wrapper [Test] *)
Section Test_facts.
Import Test.
Context {W : Type} `{rt : Runtime W}.

(** *** Which calls a computation adds to the trace *)

(** [silent p m]: running [m] adds no call of kind [p]. *)
Definition silent {A} (p : event → bool) (m : M (state W) A) : Prop :=
  ∀ s, calls p (m s).2 = calls p s.

Lemma silent_ret {A} p (a : A) : silent p (ret a).
Proof. by intros s. Qed.

Lemma silent_raise {A} p e : silent p (raise e : M (state W) A).
Proof. by intros s. Qed.

Lemma silent_ext {A} p (f : W → outcome A * W) : silent p (ext f).
Proof. intros s. unfold ext. by destruct (f (world s)). Qed.

Lemma silent_emit p ev : p ev = false → silent p (emit ev).
Proof.
  intros Hp s. unfold calls, emit. simpl.
  rewrite filter_cons_False; [done | by rewrite Hp].
Qed.

Lemma silent_bind {A B} p (m : M (state W) A) (k : A → M (state W) B) :
  silent p m → (∀ a, silent p (k a)) → silent p (bind m k).
Proof.
  intros Hm Hk s. unfold bind. specialize (Hm s).
  destruct (m s) as [[a|e] s1]; simpl in *; [by rewrite Hk | done].
Qed.

Lemma silent_dispatch {A} p (hs : handlers (state W) A) e :
  Forall (fun dh => ∀ e, silent p (dh.2 e)) hs → silent p (dispatch hs e).
Proof.
  induction 1 as [|[d h] hs Hh _ IH]; simpl.
  - apply silent_raise.
  - destruct (isinstance e d); [apply Hh | apply IH].
Qed.

Lemma silent_try_except {A} p (body : M (state W) A) hs :
  silent p body → Forall (fun dh => ∀ e, silent p (dh.2 e)) hs →
  silent p (try_except body hs).
Proof.
  intros Hb Hh s. unfold try_except. specialize (Hb s).
  destruct (body s) as [[a|e] s1]; simpl in *; [done|].
  by rewrite silent_dispatch.
Qed.

Lemma silent_try_except_else {A B} p (body : M (state W) A) hs (orelse : A → M (state W) B) :
  silent p body → Forall (fun dh => ∀ e, silent p (dh.2 e)) hs →
  (∀ a, silent p (orelse a)) →
  silent p (try_except_else body hs orelse).
Proof.
  intros Hb Hh Ho s. unfold try_except_else. specialize (Hb s).
  destruct (body s) as [[a|e] s1]; simpl in *.
  - by rewrite Ho.
  - by rewrite silent_dispatch.
Qed.

Lemma silent_try_finally {A} p (body : M (state W) A) final :
  silent p body → silent p final → silent p (try_finally body final).
Proof.
  intros Hb Hf s. unfold try_finally. specialize (Hb s).
  destruct (body s) as [o s1]. specialize (Hf s1).
  destruct (final s1) as [[[]|e] s2]; simpl in *; congruence.
Qed.

Ltac silence :=
  repeat first
    [ apply silent_ret | apply silent_raise | apply silent_ext
    | apply silent_emit; reflexivity
    | apply silent_bind; [|intros ?]
    | apply silent_try_except
    | apply silent_try_except_else; [| |intros ?]
    | apply silent_try_finally
    | apply Forall_cons; split; [intros ?|]
    | apply Forall_nil_2
    | progress simpl
    | match goal with |- silent _ (if ?b then _ else _) => destruct b end
    | match goal with |- silent _ (match ?v with _ => _ end) => destruct v end ].

Lemma beforeTest_silent p self result :
  p (EvBeforeTest result (test self)) = false →
  silent p (beforeTest self result).
Proof.
  intros Hp. unfold beforeTest, getattr, call. silence.
  by apply silent_emit.
Qed.

Lemma afterTest_silent p self result :
  p (EvAfterTest result (test self)) = false →
  silent p (afterTest self result).
Proof.
  intros Hp. unfold afterTest, getattr, call. silence.
  by apply silent_emit.
Qed.

Lemma runTest_silent p self result :
  (∀ a b, p (EvPrepareTestCase a b) = false) →
  (∀ a b, p (EvTest a b) = false) →
  silent p (runTest self result).
Proof.
  intros Hp Ht. unfold runTest, getattr, call. silence; by apply silent_emit.
Qed.

Lemma proxied_silent p self result :
  (∀ a b c, p (EvResultProxy a b c) = false) →
  silent p (proxied self result).
Proof.
  intros Hp. unfold proxied, call. silence. by apply silent_emit.
Qed.

Lemma guarded_silent p self result :
  (∀ a b, p (EvBeforeTest a b) = false) →
  (∀ a b, p (EvPrepareTestCase a b) = false) →
  (∀ a b, p (EvTest a b) = false) →
  (∀ a b c, p (EvAddError a b c) = false) →
  silent p (guarded self result).
Proof.
  intros Hb Hp Ht Ha. unfold guarded, getattr, call.
  silence; try (by apply silent_emit).
Qed.

(** The steps of [run], one equation each. *)
Lemma bind_Ok {S A B} (m : M S A) (k : A → M S B) s a s1 :
  m s = (Ok a, s1) → bind m k s = k a s1.
Proof. intros Hm. unfold bind. by rewrite Hm. Qed.

Lemma bind_Raise {S A B} (m : M S A) (k : A → M S B) s e s1 :
  m s = (Raise e, s1) → bind m k s = (Raise e, s1).
Proof. intros Hm. unfold bind. by rewrite Hm. Qed.

Lemma run_unfold self result s r1 s1 :
  proxied self result s = (Ok r1, s1) →
  run self result s = try_finally (guarded self r1) (afterTest self r1) s1.
Proof. intros Hp. unfold run. by rewrite (bind_Ok _ _ _ _ _ Hp). Qed.

Lemma run_proxy_raises self result s e s1 :
  proxied self result s = (Raise e, s1) →
  run self result s = (Raise e, s1).
Proof. intros Hp. unfold run. by rewrite (bind_Raise _ _ _ _ _ Hp). Qed.

(** What the body of the inner [try] leaves in flight reaches the
    clauses. *)
Lemma guarded_raised self r1 s1 e s3 :
  (beforeTest self r1;;; runTest self r1) s1 = (Raise e, s3) →
  guarded self r1 s1
  = dispatch
      [(KeyboardInterrupt, fun e => raise e);
       (Exception, fun e =>
          let err := VExcInfo e in
          addError <- getattr r1 "addError";;
          emit (EvAddError r1 (this self) err);;;
          _ <- call addError [this self; err];;
          ret tt)] e s3.
Proof. intros Hb. unfold guarded, try_except. by rewrite Hb. Qed.

(** The [except Exception] clause: one [addError] call, whose outcome is
    the outcome of the [try] statement. *)
Lemma guarded_reports self r1 s1 e s3 addError w4 :
  (beforeTest self r1;;; runTest self r1) s1 = (Raise e, s3) →
  isinstance e KeyboardInterrupt = false →
  isinstance e Exception = true →
  rt_getattr r1 "addError" (world s3) = (Ok addError, w4) →
  guarded self r1 s1
  = (match (rt_call addError [this self; VExcInfo e] w4).1 with
     | Ok _ => Ok tt
     | Raise e' => Raise e'
     end,
     State (rt_call addError [this self; VExcInfo e] w4).2
       (EvAddError r1 (this self) (VExcInfo e) :: trace s3)).
Proof.
  intros Hb Hk He Ha. rewrite (guarded_raised _ _ _ _ _ Hb). simpl.
  rewrite Hk, He. unfold bind, getattr, call, emit, ext. rewrite Ha. simpl.
  by destruct (rt_call addError _ w4) as [[v|e'] w5].
Qed.

(** The [except KeyboardInterrupt: raise] clause. *)
Lemma guarded_reraises self r1 s1 e s3 :
  (beforeTest self r1;;; runTest self r1) s1 = (Raise e, s3) →
  isinstance e KeyboardInterrupt = true →
  guarded self r1 s1 = (Raise e, s3).
Proof.
  intros Hb Hk. rewrite (guarded_raised _ _ _ _ _ Hb). simpl. by rewrite Hk.
Qed.

(** Neither clause matches: the exception leaves the [try] statement. *)
Lemma guarded_escapes self r1 s1 e s3 :
  (beforeTest self r1;;; runTest self r1) s1 = (Raise e, s3) →
  isinstance e KeyboardInterrupt = false →
  isinstance e Exception = false →
  guarded self r1 s1 = (Raise e, s3).
Proof.
  intros Hb Hk He. rewrite (guarded_raised _ _ _ _ _ Hb). simpl.
  by rewrite Hk, He.
Qed.

Lemma calls_cons p ev (w : W) tr :
  p ev = true → calls p (State w (ev :: tr)) = ev :: calls p (State w tr).
Proof.
  intros Hp. unfold calls. simpl. by rewrite filter_cons_True.
Qed.

(** The [finally] clause of [run] keeps the outcome of the [try] statement
    when [afterTest] returns. *)
Lemma try_finally_Ok {S A} (body : M S A) final s o s1 s2 :
  body s = (o, s1) → final s1 = (Ok tt, s2) →
  try_finally body final s = (o, s2).
Proof. intros Hb Hf. unfold try_finally. by rewrite Hb, Hf. Qed.

Lemma try_finally_Raise {S A} (body : M S A) final s o s1 e s2 :
  body s = (o, s1) → final s1 = (Raise e, s2) →
  try_finally body final s = (Raise e, s2).
Proof. intros Hb Hf. unfold try_finally. by rewrite Hb, Hf. Qed.

(** [afterTest] with the hook present: one call, then the hook's
    outcome. *)
Lemma afterTest_present self r s hook w1 :
  rt_getattr r "afterTest" (world s) = (Ok hook, w1) →
  calls is_afterTest (afterTest self r s).2
  = EvAfterTest r (test self) :: calls is_afterTest s.
Proof.
  intros Hg. unfold afterTest, try_except_else, getattr, call, emit, ext, bind.
  rewrite Hg. simpl.
  by destruct (rt_call hook [test self] w1) as [[v|e] w2].
Qed.

Lemma afterTest_absent self r s e w1 :
  rt_getattr r "afterTest" (world s) = (Raise e, w1) →
  calls is_afterTest (afterTest self r s).2 = calls is_afterTest s.
Proof.
  intros Hg. unfold afterTest, try_except_else, getattr, ext.
  rewrite Hg. simpl.
  by destruct (isinstance e AttributeError).
Qed.

(** After a silent [finally] clause the calls are those of the [try]
    statement. *)
Lemma silent_try_finally_from {A} p (body : M (state W) A) final s1 :
  silent p final →
  calls p (try_finally body final s1).2 = calls p (body s1).2.
Proof.
  intros Hf. unfold try_finally.
  destruct (body s1) as [o s2]. specialize (Hf s2).
  by destruct (final s2) as [[[]|e] s3].
Qed.

Lemma silent_step {A} p (m : M (state W) A) s o s' :
  silent p m → m s = (o, s') → calls p s' = calls p s.
Proof. intros Hm Hs. specialize (Hm s). by rewrite Hs in Hm. Qed.

Lemma body_raises_in_runTest self r1 s1 s2 e s3 :
  beforeTest self r1 s1 = (Ok tt, s2) →
  runTest self r1 s2 = (Raise e, s3) →
  (beforeTest self r1;;; runTest self r1) s1 = (Raise e, s3).
Proof. intros Hb Hr. by rewrite (bind_Ok _ _ _ _ _ Hb). Qed.

Lemma beforeTest_hook_raises self r1 s1 hook w1 e w2 :
  rt_getattr r1 "beforeTest" (world s1) = (Ok hook, w1) →
  rt_call hook [test self] w1 = (Raise e, w2) →
  beforeTest self r1 s1
  = (Raise e, State w2 (EvBeforeTest r1 (test self) :: trace s1)).
Proof.
  intros Hg Hc.
  unfold beforeTest, try_except_else, getattr, call, emit, ext, bind.
  rewrite Hg. simpl. by rewrite Hc.
Qed.

Lemma body_silent p self result :
  (∀ a b, p (EvBeforeTest a b) = false) →
  (∀ a b, p (EvPrepareTestCase a b) = false) →
  (∀ a b, p (EvTest a b) = false) →
  silent p (beforeTest self result;;; runTest self result).
Proof.
  intros Hb Hp Ht. apply silent_bind; [|intros _].
  - by apply beforeTest_silent.
  - by apply runTest_silent.
Qed.

(** The invocation [test(result)] at the end of [runTest]: when no plugin
    substitutes another callable, what the wrapped test raises is what
    [runTest] raises. *)
Lemma runTest_test_raises self r1 s2 plugins0 w1 prepare w2 w3 e w4 :
  rt_getattr (config self) "plugins" (world s2) = (Ok plugins0, w1) →
  rt_getattr plugins0 "prepareTestCase" w1 = (Ok prepare, w2) →
  rt_call prepare [this self] w2 = (Ok VNone, w3) →
  rt_call (test self) [r1] w3 = (Raise e, w4) →
  runTest self r1 s2
  = (Raise e,
     State w4 (EvTest (test self) r1
               :: EvPrepareTestCase plugins0 (this self) :: trace s2)).
Proof.
  intros Hp Hg Hc Ht. unfold runTest, bind, getattr, call, emit, ext.
  rewrite Hp. simpl. rewrite Hg. simpl. rewrite Hc. simpl. by rewrite Ht.
Qed.

(** An exception that is neither an interrupt nor an [Exception] matches
    no clause: no [addError] call, and it leaves [run] when [afterTest]
    returns. *)
Lemma run_lets_other_exceptions_through self result s r1 s1 e s3 :
  proxied self result s = (Ok r1, s1) →
  (beforeTest self r1;;; runTest self r1) s1 = (Raise e, s3) →
  isinstance e KeyboardInterrupt = false →
  isinstance e Exception = false →
  calls is_addError (run self result s).2 = calls is_addError s
  ∧ (∀ s4, afterTest self r1 s3 = (Ok tt, s4) →
       run self result s = (Raise e, s4)).
Proof.
  intros Hp Hbody Hk He.
  pose proof (guarded_escapes _ _ _ _ _ Hbody Hk He) as Hg.
  rewrite (run_unfold _ _ _ _ _ Hp). split.
  - rewrite silent_try_finally_from by (by apply afterTest_silent).
    rewrite Hg. simpl.
    rewrite (silent_step _ _ _ _ _ (body_silent is_addError self r1
               ltac:(done) ltac:(done) ltac:(done)) Hbody).
    by rewrite (silent_step _ _ _ _ _ (proxied_silent is_addError self
                  result ltac:(done)) Hp).
  - intros s4 Hf. by rewrite (try_finally_Ok _ _ _ _ _ _ Hg Hf).
Qed.

(** C1 (amended): when the invocation of the wrapped test raises an
    exception [e] whose class derives from [Exception] (and not from
    [KeyboardInterrupt]), and the result in use provides [addError], then
    [run] makes exactly one call [result.addError(self, exc_info)] for it;
    if that call and [afterTest] return, [run] returns normally to its
    caller. *)
Theorem run_reports_Exception_once self result s r1 s1 s2 e s3 addError w4 :
  proxied self result s = (Ok r1, s1) →
  beforeTest self r1 s1 = (Ok tt, s2) →
  runTest self r1 s2 = (Raise e, s3) →
  isinstance e KeyboardInterrupt = false →
  isinstance e Exception = true →
  rt_getattr r1 "addError" (world s3) = (Ok addError, w4) →
  calls is_addError (run self result s).2
  = EvAddError r1 (this self) (VExcInfo e) :: calls is_addError s
  ∧ (∀ v w5 s6,
       rt_call addError [this self; VExcInfo e] w4 = (Ok v, w5) →
       afterTest self r1
         (State w5 (EvAddError r1 (this self) (VExcInfo e) :: trace s3))
       = (Ok tt, s6) →
       run self result s = (Ok tt, s6)).
Proof.
  intros Hp Hb Hr Hk He Ha.
  pose proof (body_raises_in_runTest _ _ _ _ _ _ Hb Hr) as Hbody.
  pose proof (guarded_reports _ _ _ _ _ _ _ Hbody Hk He Ha) as Hg.
  rewrite (run_unfold _ _ _ _ _ Hp). split.
  - rewrite silent_try_finally_from with (p := is_addError) (s1 := s1)
      (body := guarded self r1) (final := afterTest self r1).
    + rewrite Hg. simpl. rewrite calls_cons by done. f_equal.
      change (calls is_addError s3 = calls is_addError s).
      rewrite (silent_step _ _ _ _ _ (runTest_silent is_addError self r1
                 ltac:(done) ltac:(done)) Hr).
      rewrite (silent_step _ _ _ _ _ (beforeTest_silent is_addError self r1
                 ltac:(done)) Hb).
      by rewrite (silent_step _ _ _ _ _ (proxied_silent is_addError self
                    result ltac:(done)) Hp).
    + by apply afterTest_silent.
  - intros v w5 s6 Hc Hf.
    rewrite Hc in Hg. simpl in Hg.
    by rewrite (try_finally_Ok _ _ _ _ _ _ Hg Hf).
Qed.

(** C2 (amended): once the result-proxy step of [run] has completed, the
    after-hook of the result in use is invoked exactly once, whatever the
    outcome [o] of the inner [try] statement (normal completion, an
    exception reported through [addError], a re-raised interrupt, or
    anything else); without the hook, no such call is made. *)
Theorem run_afterTest_exactly_once self result s r1 s1 o s2 :
  proxied self result s = (Ok r1, s1) →
  guarded self r1 s1 = (o, s2) →
  (∀ hook w, rt_getattr r1 "afterTest" (world s2) = (Ok hook, w) →
     calls is_afterTest (run self result s).2
     = EvAfterTest r1 (test self) :: calls is_afterTest s)
  ∧ (∀ e w, rt_getattr r1 "afterTest" (world s2) = (Raise e, w) →
     calls is_afterTest (run self result s).2 = calls is_afterTest s).
Proof.
  intros Hp Hg.
  assert (calls is_afterTest s2 = calls is_afterTest s) as Hs.
  { rewrite (silent_step _ _ _ _ _ (guarded_silent is_afterTest self r1
               ltac:(done) ltac:(done) ltac:(done) ltac:(done)) Hg).
    by rewrite (silent_step _ _ _ _ _ (proxied_silent is_afterTest self
                  result ltac:(done)) Hp). }
  assert (∀ x, calls is_afterTest (run self result s).2 = x ↔
               calls is_afterTest (afterTest self r1 s2).2 = x) as Hrun.
  { intros x. rewrite (run_unfold _ _ _ _ _ Hp). unfold try_finally.
    rewrite Hg. by destruct (afterTest self r1 s2) as [[[]|e] s3]. }
  split.
  - intros hook w Hh. apply Hrun.
    by rewrite (afterTest_present _ _ _ _ _ Hh), Hs.
  - intros e w Hh. apply Hrun.
    by rewrite (afterTest_absent _ _ _ _ _ Hh), Hs.
Qed.

(** C3 (amended): when the invocation of the wrapped test raises an
    interrupt [e] (class [KeyboardInterrupt] or derived), [run] makes no
    [addError] call, the after-hook, when present, is invoked exactly
    once, and, provided [afterTest] returns, the same [e] leaves [run]. *)
Theorem run_reraises_interrupt self result s r1 s1 s2 e s3 :
  proxied self result s = (Ok r1, s1) →
  beforeTest self r1 s1 = (Ok tt, s2) →
  runTest self r1 s2 = (Raise e, s3) →
  isinstance e KeyboardInterrupt = true →
  calls is_addError (run self result s).2 = calls is_addError s
  ∧ (∀ hook w, rt_getattr r1 "afterTest" (world s3) = (Ok hook, w) →
       calls is_afterTest (run self result s).2
       = EvAfterTest r1 (test self) :: calls is_afterTest s)
  ∧ (∀ s4, afterTest self r1 s3 = (Ok tt, s4) →
       run self result s = (Raise e, s4)).
Proof.
  intros Hp Hb Hr Hk.
  pose proof (body_raises_in_runTest _ _ _ _ _ _ Hb Hr) as Hbody.
  pose proof (guarded_reraises _ _ _ _ _ Hbody Hk) as Hg.
  split; [|split].
  - rewrite (run_unfold _ _ _ _ _ Hp).
    rewrite silent_try_finally_from by (by apply afterTest_silent).
    rewrite Hg. simpl.
    rewrite (silent_step _ _ _ _ _ (runTest_silent is_addError self r1
               ltac:(done) ltac:(done)) Hr).
    rewrite (silent_step _ _ _ _ _ (beforeTest_silent is_addError self r1
               ltac:(done)) Hb).
    by rewrite (silent_step _ _ _ _ _ (proxied_silent is_addError self
                  result ltac:(done)) Hp).
  - intros hook w Hh. rewrite (run_unfold _ _ _ _ _ Hp).
    unfold try_finally. rewrite Hg.
    pose proof (afterTest_present self r1 s3 hook w Hh) as Ha.
    destruct (afterTest self r1 s3) as [[[]|e'] s4]; simpl in *;
      rewrite Ha; f_equal;
      rewrite (silent_step _ _ _ _ _ (runTest_silent is_afterTest self r1
                 ltac:(done) ltac:(done)) Hr);
      rewrite (silent_step _ _ _ _ _ (beforeTest_silent is_afterTest self r1
                 ltac:(done)) Hb);
      by rewrite (silent_step _ _ _ _ _ (proxied_silent is_afterTest self
                    result ltac:(done)) Hp).
  - intros s4 Hf. rewrite (run_unfold _ _ _ _ _ Hp).
    by rewrite (try_finally_Ok _ _ _ _ _ _ Hg Hf).
Qed.

(** C10 (amended): when the [beforeTest] hook of the result raises an
    exception [e] whose class derives from [Exception] (and not from
    [KeyboardInterrupt]), [run] reports it by one call
    [result.addError(self, exc_info)], never invokes the test, still
    invokes the after-hook (when present) exactly once, and returns
    normally if the [addError] call and [afterTest] return. *)
Theorem run_contains_beforeTest_failure
    self result s r1 s1 hook w1 e w2 addError w3 :
  proxied self result s = (Ok r1, s1) →
  rt_getattr r1 "beforeTest" (world s1) = (Ok hook, w1) →
  rt_call hook [test self] w1 = (Raise e, w2) →
  isinstance e KeyboardInterrupt = false →
  isinstance e Exception = true →
  rt_getattr r1 "addError" w2 = (Ok addError, w3) →
  let w4 := (rt_call addError [this self; VExcInfo e] w3).2 in
  let s4 := State w4 (EvAddError r1 (this self) (VExcInfo e)
                        :: EvBeforeTest r1 (test self) :: trace s1) in
  calls is_addError (run self result s).2
  = EvAddError r1 (this self) (VExcInfo e) :: calls is_addError s
  ∧ calls is_test (run self result s).2 = calls is_test s
  ∧ (∀ after w5, rt_getattr r1 "afterTest" w4 = (Ok after, w5) →
       calls is_afterTest (run self result s).2
       = EvAfterTest r1 (test self) :: calls is_afterTest s)
  ∧ (∀ v s5,
       rt_call addError [this self; VExcInfo e] w3 = (Ok v, w4) →
       afterTest self r1 s4 = (Ok tt, s5) →
       run self result s = (Ok tt, s5)).
Proof.
  intros Hp Hh Hc Hk He Ha w4 s4.
  pose proof (beforeTest_hook_raises _ _ _ _ _ _ _ Hh Hc) as Hb.
  pose proof (bind_Raise _ (fun _ => runTest self r1) _ _ _ Hb) as Hbody.
  pose proof (guarded_reports _ _ _ _ _ _ _ Hbody Hk He Ha) as Hg.
  fold w4 in Hg. simpl in Hg.
  assert (∀ p, (∀ a b c, p (EvResultProxy a b c) = false) →
               calls p s1 = calls p s) as Hs1.
  { intros p Hpx.
    exact (silent_step _ _ _ _ _ (proxied_silent p self result Hpx) Hp). }
  rewrite (run_unfold _ _ _ _ _ Hp).
  split; [|split; [|split]].
  - rewrite silent_try_finally_from by (by apply afterTest_silent).
    rewrite Hg. unfold calls. simpl. rewrite filter_cons_True by done.
    rewrite filter_cons_False by (simpl; congruence).
    f_equal. by apply Hs1.
  - rewrite silent_try_finally_from by (by apply afterTest_silent).
    rewrite Hg. unfold calls. simpl.
    rewrite !filter_cons_False by (simpl; congruence).
    by apply Hs1.
  - intros after w5 Hafter. unfold try_finally. rewrite Hg.
    pose proof (afterTest_present self r1 s4 after w5 Hafter) as Hf.
    fold s4.
    assert (calls is_afterTest s4 = calls is_afterTest s) as Hs4.
    { unfold calls, s4. simpl.
      rewrite !filter_cons_False by (simpl; congruence).
      by apply Hs1. }
    destruct (afterTest self r1 s4) as [[[]|e'] s5]; simpl in *;
      by rewrite Hf, Hs4.
  - intros v s5 Hcall Hf. rewrite Hcall in Hg. simpl in Hg.
    by rewrite (try_finally_Ok _ _ _ _ _ _ Hg Hf).
Qed.

(** A proxy factory that raises ends [run] before the [try] statement:
    no hook is called. *)
Lemma run_proxy_failure self result s e s1 :
  proxied self result s = (Raise e, s1) →
  run self result s = (Raise e, s1)
  ∧ calls is_afterTest (run self result s).2 = calls is_afterTest s.
Proof.
  intros Hp. rewrite (run_proxy_raises _ _ _ _ _ Hp). split; [done|].
  exact (silent_step _ _ _ _ _ (proxied_silent is_afterTest self result
           ltac:(done)) Hp).
Qed.

(** An exception of [afterTest] is what leaves [run], whatever the [try]
    statement left in flight. *)
Lemma run_afterTest_failure self result s r1 s1 o s2 e s3 :
  proxied self result s = (Ok r1, s1) →
  guarded self r1 s1 = (o, s2) →
  afterTest self r1 s2 = (Raise e, s3) →
  run self result s = (Raise e, s3).
Proof.
  intros Hp Hg Hf. rewrite (run_unfold _ _ _ _ _ Hp).
  exact (try_finally_Raise _ _ _ _ _ _ _ Hg Hf).
Qed.

(** ** Construction *)

(** A wrapper that was constructed holds the object it was given, and
    that object is callable: the check is made in the constructor and is
    never left to [run]. *)
Lemma init_Ok_callable self test0 config0 proxy0 s a s' :
  __init__ self test0 config0 proxy0 s = (Ok a, s') →
  test a = test0 ∧ isCallable test0 = true.
Proof.
  unfold __init__. destruct (isCallable test0) eqn:Hc; simpl.
  - unfold bind.
    destruct ((if is_None config0 then call rt_Config [] else ret config0) s)
      as [[c|e] s1]; [|discriminate].
    destruct (getattr c "plugins" s1) as [[p|e] s2]; [|discriminate].
    unfold ret. by intros [= <- <-].
  - unfold bind.
    destruct (percent_r _ _ _ s) as [[msg|e] s1]; discriminate.
Qed.

(** An object that is neither callable nor a tuple: [repr] of it is the
    one thing evaluated, and unless that raises, the constructor raises
    the [TypeError] whose message names the object. *)
Lemma init_describes_non_callable self test0 config0 proxy0 s :
  isCallable test0 = false →
  as_tuple test0 = None →
  __init__ self test0 config0 proxy0 s
  = match rt_repr test0 (world s) with
    | (Ok r, w) =>
        (Raise (Exn (Builtin TypeError)
                  (not_callable_pre ++ r ++ not_callable_post)),
         State w (trace s))
    | (Raise e, w) => (Raise e, State w (trace s))
    end.
Proof.
  intros Hc Ht. unfold __init__, percent_r. rewrite Hc, Ht. simpl.
  unfold bind, repr, ext.
  by destruct (rt_repr test0 (world s)) as [[r|e] w].
Qed.

(** C4 (the code departs from it): an object that is not callable and is
    a tuple is unpacked by [%] while the message is built. The
    constructor still fails, but not with the message that describes the
    object: for the empty tuple and for a tuple of two or more items the
    [TypeError] is the one of the formatting, and for a tuple of one item
    the message names the item, not the tuple. *)
Theorem init_unpacks_tuple_argument self test0 config0 proxy0 s items :
  isCallable test0 = false →
  as_tuple test0 = Some items →
  __init__ self test0 config0 proxy0 s
  = match items with
    | [] =>
        (Raise (Exn (Builtin TypeError)
                  "not enough arguments for format string"), s)
    | x :: rest =>
        match rt_repr x (world s) with
        | (Raise e, w) => (Raise e, State w (trace s))
        | (Ok r, w) =>
            match rest with
            | [] =>
                (Raise (Exn (Builtin TypeError)
                          (not_callable_pre ++ r ++ not_callable_post)),
                 State w (trace s))
            | _ :: _ =>
                (Raise (Exn (Builtin TypeError)
                          "not all arguments converted during string formatting"),
                 State w (trace s))
            end
        end
    end.
Proof.
  intros Hc Ht. unfold __init__, percent_r. rewrite Hc, Ht. simpl.
  destruct items as [|x [|y rest]]; [done| |];
    unfold bind, repr, ext;
    by destruct (rt_repr x (world s)) as [[r|e] w].
Qed.

(** ** [shortDescription] *)

(** C8 (amended): a description that the plugins supply is returned as it
    is; with none, and when the doc-stripping step raises nothing,
    [shortDescription] returns [None] whenever the wrapped test's own
    [shortDescription()] equals the wrapped test's string form
    [str(self.test)]; an exception of the doc-stripping step leaves
    [shortDescription] before the comparison is reached. *)
Theorem shortDescription_absent_when_equal_to_str_of_test
    self s describeTest w0 desc w1 :
  rt_getattr (plugins self) "describeTest" (world s) = (Ok describeTest, w0) →
  rt_call describeTest [this self] w0 = (Ok desc, w1) →
  (desc ≠ VNone → shortDescription self s = (Ok desc, State w1 (trace s)))
  ∧ (∀ s2 f w3 d w4 w5,
       desc = VNone →
       strip_testMethodDoc (test self) (State w1 (trace s)) = (Ok tt, s2) →
       rt_getattr (test self) "shortDescription" (world s2) = (Ok f, w3) →
       rt_call f [] w3 = (Ok (VStr d), w4) →
       rt_str (test self) w4 = (Ok d, w5) →
       shortDescription self s = (Ok VNone, State w5 (trace s2)))
  ∧ (∀ e s2,
       desc = VNone →
       strip_testMethodDoc (test self) (State w1 (trace s)) = (Raise e, s2) →
       shortDescription self s = (Raise e, s2)).
Proof.
  intros Hg Hc.
  assert (∀ k : value → M (state W) value,
            bind (getattr (plugins self) "describeTest")
                 (fun f => bind (call f [this self]) k) s
               = k desc (State w1 (trace s))) as Hhead.
  { intros k. unfold bind, getattr, call, ext. rewrite Hg. simpl.
    by rewrite Hc. }
  split; [|split].
  - intros Hd. unfold shortDescription. rewrite Hhead.
    by destruct desc.
  - intros s2 f w3 d w4 w5 -> Hs Hf Hcall Hstr.
    unfold shortDescription. rewrite Hhead. simpl.
    rewrite (bind_Ok _ _ _ _ _ Hs).
    unfold bind, try_except, getattr, call, str, ext.
    rewrite Hf. simpl. rewrite Hcall. simpl. rewrite Hstr. simpl.
    by rewrite String.eqb_refl.
  - intros e s2 -> Hs.
    unfold shortDescription. rewrite Hhead. simpl.
    unfold bind at 1. by rewrite Hs.
Qed.

(** ** [context] *)

(** C9 (amended): every read of [context] runs the getter (nothing is
    cached), and the getter yields the first that resolves of: the
    [context] attribute of the wrapped test, its class, the resolved
    module of the wrapped test; [None] when none of them resolves. *)
Theorem context_is_first_resolved self s :
  context self s = first_resolved (context_candidates self) s.
Proof.
  unfold context, _context, context_candidates, first_resolved.
  unfold try_except, bind, getattr, call, ext, ret. simpl.
  destruct (rt_getattr (test self) "context" (world s)) as [[v|e] w1];
    simpl; [done|].
  destruct (isinstance e AttributeError); simpl; [|done].
  destruct (rt_getattr (test self) "__class__" w1) as [[v|e'] w2];
    simpl; [done|].
  destruct (isinstance e' AttributeError); simpl; [|done].
  destruct (rt_getattr (test self) "__module__" w2) as [[m|e''] w3]; simpl.
  - destruct (rt_call rt_resolve_name [m] w3) as [[v|e3] w4]; simpl; [done|].
    by destruct (isinstance e3 AttributeError).
  - by destruct (isinstance e'' AttributeError).
Qed.

End Test_facts.

(** * Properties of [FunctionTestCase] *)
Section FunctionTestCase_facts.
Import FunctionTestCase.
Context {W : Type} `{rt : Runtime W}.

(** C5: the address of a [FunctionTestCase] built with a descriptor [D]
    other than [None] over a function [F] is [test_address(D)]; built
    without descriptor it is [test_address(F)]. *)
Theorem address_from_descriptor F setUp tearDown arg0 D s :
  (D ≠ VNone →
   address (__init__ F setUp tearDown arg0 D) s
   = call rt_test_address [D] s)
  ∧ address (__init__ F setUp tearDown arg0 VNone) s
    = call rt_test_address [F] s.
Proof.
  split; [|done].
  intros HD. unfold address, __init__. simpl. by destruct D.
Qed.

End FunctionTestCase_facts.

(** * Properties of [MethodTestCase] *)
Section MethodTestCase_facts.
Import MethodTestCase.
Variable instantiate : classdef → M heap ref.

Lemma new_fresh construct c (h h' : heap) r :
  new construct c h = (Ok r, h') →
  (r ∉ dom (objects h))
  ∧ (∃ k d, (k ∉ dom (dicts h)) ∧ construct c = Ok d
            ∧ h' = allocated h r c k d).
Proof.
  unfold new. destruct (construct c) as [d|e]; [|done].
  intros [= <- <-]. split; [apply is_fresh|].
  exists (fresh (dom (dicts h))), d. split; [apply is_fresh | done].
Qed.

(** The default allocation of [object] does allocate. *)
Lemma new_allocates construct c : allocates (new construct) c.
Proof.
  intros h r h' Hnew.
  apply new_fresh in Hnew as (Hfresh & k & d & Hk & _ & ->).
  by exists k, d.
Qed.

Lemma getattr_inst_heap r name (h h' : heap) o :
  getattr_inst r name h = (o, h') → h' = h.
Proof.
  unfold getattr_inst. destruct (objects h !! r) as [i|]; [|by intros [= _ <-]].
  destruct (own_attr h r name); [by intros [= _ <-]|].
  destruct (List.find _ _); by intros [= _ <-].
Qed.

(** What a successful construction did: the class of the method's
    [__self__] was called once, what the call returned is the instance
    of the case, and the heap is as the call left it. *)
Lemma init_Ok m t0 a d (h h' : heap) mc :
  __init__ instantiate m t0 a d h = (Ok mc, h') →
  ∃ r f i,
    m = VMethod r f ∧ objects h !! r = Some i ∧ cls mc = inst_class i
    ∧ instantiate (cls mc) h = (Ok (inst mc), h').
Proof.
  unfold __init__.
  destruct (isfunction m) eqn:Hf; [done|].
  destruct m as [| | | | |r f| |]; try done.
  unfold bind at 1. simpl. unfold bind at 1. unfold get___class__.
  destruct (objects h !! r) as [i|] eqn:Hr; [|done].
  unfold bind at 1.
  destruct (instantiate (inst_class i) h) as [[r'|e] h1] eqn:Hnew; [|done].
  unfold bind.
  destruct (is_None t0).
  - simpl.
    destruct (getattr_inst r' (fn_name f) _) as [[v|e] h2] eqn:Hg; [|done].
    apply getattr_inst_heap in Hg as ->.
    intros [= <- <-]. simpl. by exists r, f, i.
  - simpl. intros [= <- <-]. simpl. by exists r, f, i.
Qed.

(** An assignment keeps the instances, and touches the one dictionary of
    the instance it is made on. *)
Lemma setattr_inst_other r name v (h h' : heap) o :
  setattr_inst r name v h = (o, h') →
  objects h' = objects h
  ∧ ∀ k, (∀ i, objects h !! r = Some i → inst_dict i ≠ k) →
         dicts h' !! k = dicts h !! k.
Proof.
  unfold setattr_inst. destruct (objects h !! r) as [i|]; intros [= _ <-];
    (split; [done|]); intros k Hk; simpl; [|done].
  apply lookup_insert_ne. by apply Hk.
Qed.

(** So does a body that assigns attributes of one instance. *)
Lemma assign_all_other r body (h h' : heap) o :
  assign_all r body h = (o, h') →
  objects h' = objects h
  ∧ ∀ k, (∀ i, objects h !! r = Some i → inst_dict i ≠ k) →
         dicts h' !! k = dicts h !! k.
Proof.
  revert h. induction body as [|[name v] body IH]; intros h; simpl.
  - by intros [= _ <-].
  - unfold bind.
    destruct (setattr_inst r name v h) as [[[]|e] h1] eqn:Hs; intros Hb;
      apply setattr_inst_other in Hs as [Ho Hd].
    + apply IH in Hb as [Ho' Hd']. split; [congruence|].
      intros k Hk. rewrite Hd'; [by apply Hd|]. by rewrite Ho.
    + by injection Hb as _ <-.
Qed.

(** Without an explicit test callable, the callable of the case is the
    attribute of the method's name looked up on the instance the class
    returned: unless that instance holds something under the name in its
    own [__dict__], a method whose [__self__] is the instance. *)
Lemma init_binds_instance r f a d (h h' : heap) mc :
  __init__ instantiate (VMethod r f) VNone a d h = (Ok mc, h') →
  own_attr h' (inst mc) (fn_name f) = None →
  ∃ g, test mc = VMethod (inst mc) g ∧ fn_name g = fn_name f.
Proof.
  unfold __init__. simpl. unfold bind at 1. simpl.
  unfold bind at 1. unfold get___class__.
  destruct (objects h !! r) as [i|] eqn:Hr; [|done].
  unfold bind at 1.
  destruct (instantiate (inst_class i) h) as [[r'|e] h1] eqn:Hnew; [|done].
  unfold bind. simpl. unfold getattr_inst at 1.
  destruct (objects h1 !! r') as [j|] eqn:Hj; [|done].
  destruct (own_attr h1 r' (fn_name f)) as [v|] eqn:Hd.
  - intros [= <- <-]. simpl. congruence.
  - destruct (List.find _ _) as [g|] eqn:Hfind; [|done].
    intros [= <- <-] _. simpl. exists g. split; [done|].
    apply find_some in Hfind as [_ Hname]. by apply String.eqb_eq.
Qed.

(** C6 (amended): [MethodTestCase.__init__] calls the class of the
    method's [__self__] once and keeps what the call returns. When the
    calls of the classes allocate (the default of [object]: a new object
    with a new dictionary, nothing else changed), the instance of a case
    was not live before, it is not the instance the method was taken
    from, the instances of two cases differ, the second one is as its
    class's call left it, and a test body that assigns attributes of the
    first instance leaves what the second one holds unchanged. *)
Theorem instances_are_isolated
    m1 t1 a1 d1 m2 t2 a2 d2 (h h1 h1' h2 : heap) mc1 mc2 :
  __init__ instantiate m1 t1 a1 d1 h = (Ok mc1, h1) →
  is_Some (attrs h1' (inst mc1)) →
  __init__ instantiate m2 t2 a2 d2 h1' = (Ok mc2, h2) →
  allocates instantiate (cls mc1) →
  allocates instantiate (cls mc2) →
  (∃ r f i k dict,
     m1 = VMethod r f ∧ objects h !! r = Some i ∧ cls mc1 = inst_class i
     ∧ inst mc1 ≠ r
     ∧ (inst mc1 ∉ dom (objects h))
     ∧ (k ∉ dom (dicts h))
     ∧ h1 = allocated h (inst mc1) (cls mc1) k dict)
  ∧ inst mc2 ≠ inst mc1
  ∧ (∃ k dict,
       (inst mc2 ∉ dom (objects h1'))
       ∧ (k ∉ dom (dicts h1'))
       ∧ h2 = allocated h1' (inst mc2) (cls mc2) k dict
       ∧ attrs h2 (inst mc2) = Some dict)
  ∧ (∀ body o h3,
       assign_all (inst mc1) body h2 = (o, h3) →
       attrs h3 (inst mc2) = attrs h2 (inst mc2)).
Proof.
  intros H1 [d1' Hlive] H2 Ha1 Ha2.
  apply init_Ok in H1 as (r1 & f1 & i1 & -> & Hr1 & Hc1 & Hi1).
  apply init_Ok in H2 as (r2 & f2 & i2 & _ & _ & _ & Hi2).
  apply Ha1 in Hi1 as (k1 & dict1 & Hf1 & Hk1 & ->).
  apply Ha2 in Hi2 as (k2 & dict2 & Hf2 & Hk2 & ->).
  unfold attrs in Hlive.
  destruct (objects h1' !! inst mc1) as [j1|] eqn:Hj1; [|done].
  assert (inst mc2 ≠ inst mc1) as Hne.
  { intros Heq. apply Hf2. rewrite Heq. apply elem_of_dom. by exists j1. }
  assert (inst_dict j1 ≠ k2) as Hdict.
  { intros Heq. apply Hk2. rewrite <- Heq. apply elem_of_dom. by exists d1'. }
  assert (attrs (allocated h1' (inst mc2) (cls mc2) k2 dict2) (inst mc2)
          = Some dict2) as Hattrs.
  { unfold attrs, allocated. simpl. rewrite lookup_insert_eq. simpl.
    by rewrite lookup_insert_eq. }
  split; [|split; [done|split]].
  - exists r1, f1, i1, k1, dict1. repeat (split; [done|]).
    split; [|done]. intros Heq. apply Hf1. rewrite Heq.
    apply elem_of_dom. by exists i1.
  - by exists k2, dict2.
  - intros body o h3 Hb.
    apply assign_all_other in Hb as [Ho Hd].
    unfold attrs. rewrite Ho. simpl. rewrite lookup_insert_eq. simpl.
    apply Hd. intros i. simpl. rewrite lookup_insert_ne; [|done].
    rewrite Hj1. by intros [= <-].
Qed.

(** C7: given a plain function, [MethodTestCase.__init__] raises
    [ValueError] at once, leaving the heap as it was; and whenever the
    construction succeeds, the method carries a [__self__] whose class
    could be instantiated without arguments. *)
Theorem init_rejects_plain_function m t0 a d (h : heap) :
  (isfunction m = true →
   __init__ instantiate m t0 a d h
   = (Raise (Exn (Builtin ValueError) unbound_msg), h))
  ∧ (∀ mc h', __init__ instantiate m t0 a d h = (Ok mc, h') →
       isfunction m = false
       ∧ (∃ r f i,
            m = VMethod r f ∧ objects h !! r = Some i
            ∧ cls mc = inst_class i
            ∧ instantiate (inst_class i) h = (Ok (inst mc), h'))).
Proof.
  split.
  - intros Hf. unfold __init__. by rewrite Hf.
  - intros mc h' Hinit.
    apply init_Ok in Hinit as (r & f & i & -> & Hr & Hc & Hi).
    split; [done|]. exists r, f, i. by rewrite <- Hc.
Qed.

End MethodTestCase_facts.

(** * [Test.run] on the concrete collaborators *)
Section Test_run_examples.
Import Test Example.

(** A test that raises [ValueError]: one [addError] call; [run] returns. *)
Lemma run_reports_Exception_once_witness :
  isinstance value_error KeyboardInterrupt = false
  ∧ isinstance value_error Exception = true
  ∧ calls is_addError (run adapter result (start (failing_test value_error))).2
    = [EvAddError result (VObj 20) (VExcInfo value_error)]
  ∧ run adapter result (start (failing_test value_error))
    = (Ok tt, (run adapter result (start (failing_test value_error))).2).
Proof.
  edestruct (run_reports_Exception_once adapter result
               (start (failing_test value_error))) as [Hcalls Hret];
    [by cbv..|].
  split; [reflexivity|]. split; [reflexivity|]. split; [exact Hcalls|].
  erewrite Hret; reflexivity.
Defined.

(** C1 as stated fails: [SystemExit] is not an interrupt, yet a test that
    raises it gets no [addError] call and the exception leaves [run]. *)
Lemma run_SystemExit_not_reported :
  isinstance system_exit KeyboardInterrupt = false
  ∧ (rt_call the_test [result] (failing_test system_exit)).1
    = Raise system_exit
  ∧ calls is_addError (run adapter result (start (failing_test system_exit))).2
    = []
  ∧ (run adapter result (start (failing_test system_exit))).1
    = Raise system_exit.
Proof. repeat split. Qed.

(** Interrupt path: the after-hook is invoked once. *)
Lemma run_afterTest_exactly_once_witness :
  (guarded adapter result (start (failing_test interrupt))).1 = Raise interrupt
  ∧ calls is_afterTest (run adapter result (start (failing_test interrupt))).2
    = [EvAfterTest result the_test].
Proof.
  split; [reflexivity|].
  edestruct (run_afterTest_exactly_once adapter result
               (start (failing_test interrupt))) as [Hpresent _];
    [by cbv..|].
  eapply Hpresent. reflexivity.
Defined.

(** C2 as stated fails: when the result-proxy factory raises, [run] is
    left before its [try] statement and the after-hook, though present on
    the result, is never invoked. *)
Lemma run_failing_proxy_skips_afterTest :
  (rt_getattr result "afterTest" (failing_proxy value_error)).1
  = Ok result_afterTest
  ∧ (run proxied_adapter result (start (failing_proxy value_error))).1
    = Raise value_error
  ∧ calls is_afterTest
      (run proxied_adapter result (start (failing_proxy value_error))).2
    = [].
Proof. repeat split. Qed.

(** A test that raises [KeyboardInterrupt], with hooks that return. *)
Lemma run_reraises_interrupt_witness :
  isinstance interrupt KeyboardInterrupt = true
  ∧ calls is_addError (run adapter result (start (failing_test interrupt))).2
    = []
  ∧ calls is_afterTest (run adapter result (start (failing_test interrupt))).2
    = [EvAfterTest result the_test]
  ∧ (run adapter result (start (failing_test interrupt))).1 = Raise interrupt.
Proof.
  edestruct (run_reraises_interrupt adapter result
               (start (failing_test interrupt))) as (Hno & Honce & Hout);
    [by cbv..|].
  split; [reflexivity|]. split; [exact Hno|]. split.
  - eapply Honce. reflexivity.
  - erewrite Hout; reflexivity.
Defined.

(** C3 as stated fails: if the after-hook itself raises while the
    interrupt is in flight, its exception, not the interrupt, leaves
    [run]. *)
Lemma run_interrupt_replaced_by_afterTest_failure :
  isinstance interrupt KeyboardInterrupt = true
  ∧ (rt_call the_test [result]
       (interrupted_failing_after interrupt value_error)).1
    = Raise interrupt
  ∧ (run adapter result
       (start (interrupted_failing_after interrupt value_error))).1
    = Raise value_error
  ∧ Raise (A:=unit) value_error ≠ Raise interrupt.
Proof. repeat split. discriminate. Qed.

(** A [beforeTest] hook that raises [ValueError]. *)
Lemma run_contains_beforeTest_failure_witness :
  (rt_call result_beforeTest [the_test] (failing_before value_error)).1
  = Raise value_error
  ∧ calls is_addError
      (run adapter result (start (failing_before value_error))).2
    = [EvAddError result (VObj 20) (VExcInfo value_error)]
  ∧ calls is_test (run adapter result (start (failing_before value_error))).2
    = []
  ∧ calls is_afterTest
      (run adapter result (start (failing_before value_error))).2
    = [EvAfterTest result the_test]
  ∧ (run adapter result (start (failing_before value_error))).1 = Ok tt.
Proof.
  edestruct (run_contains_beforeTest_failure adapter result
               (start (failing_before value_error)))
    as (Hone & Hnot & Hafter & Hret); [by cbv..|].
  split; [reflexivity|]. split; [exact Hone|]. split; [exact Hnot|]. split.
  - eapply Hafter. reflexivity.
  - erewrite Hret; reflexivity.
Defined.

(** C10 as stated fails: a [beforeTest] hook that raises [SystemExit], not
    an interrupt, is not reported; the exception leaves [run]. *)
Lemma run_beforeTest_SystemExit_not_reported :
  isinstance system_exit KeyboardInterrupt = false
  ∧ (rt_call result_beforeTest [the_test] (failing_before system_exit)).1
    = Raise system_exit
  ∧ calls is_addError
      (run adapter result (start (failing_before system_exit))).2
    = []
  ∧ (run adapter result (start (failing_before system_exit))).1
    = Raise system_exit.
Proof. repeat split. Qed.

(** A class derived from [KeyboardInterrupt] is an interrupt as well, also
    when it derives from [Exception] too: the first clause wins. *)
Example run_reraises_derived_interrupt :
  let abort :=
    Exn (UserDefined "Abort" [Builtin KeyboardInterrupt; Builtin Exception])
      "stop" in
  isinstance abort Exception = true
  ∧ calls is_addError (run adapter result (start (failing_test abort))).2 = []
  ∧ (run adapter result (start (failing_test abort))).1 = Raise abort.
Proof. by repeat split. Qed.

(** The proxy factory returns: the hooks of the result it returns are the
    ones invoked. *)
Example run_through_proxy :
  trace (run proxied_adapter (VObj 99) (start calm)).2
  = [EvAfterTest result the_test; EvTest the_test result;
     EvPrepareTestCase plugin_manager (VObj 20);
     EvBeforeTest result the_test;
     EvResultProxy proxy_factory (VObj 99) (VObj 20)].
Proof. reflexivity. Qed.

(** When [addError] itself raises, that exception leaves [run], after the
    after-hook. *)
Example run_failing_addError :
  calls is_addError
    (run adapter result (start (failing_report assertion_error value_error))).2
  = [EvAddError result (VObj 20) (VExcInfo assertion_error)]
  ∧ calls is_afterTest
      (run adapter result
         (start (failing_report assertion_error value_error))).2
    = [EvAfterTest result the_test]
  ∧ (run adapter result
       (start (failing_report assertion_error value_error))).1
    = Raise value_error.
Proof. by repeat split. Qed.

(** A result without the optional hooks: the error is reported, no hook is
    called. *)
Example run_without_hooks :
  trace (run adapter result (start (without_hooks assertion_error))).2
  = [EvAddError result (VObj 20) (VExcInfo assertion_error);
     EvTest the_test result; EvPrepareTestCase plugin_manager (VObj 20)]
  ∧ (run adapter result (start (without_hooks assertion_error))).1 = Ok tt
  ∧ w_errors (world (run adapter result
                       (start (without_hooks assertion_error))).2)
    = [VObj 20; VExcInfo assertion_error].
Proof. by repeat split. Qed.

End Test_run_examples.

(** * The other wrappers on the concrete collaborators *)
Section Construction_examples.
Import Test Example.

(** A pair is not callable; [%] unpacks it, and the [TypeError] raised
    is the one of the formatting. *)
Lemma init_unpacks_tuple_argument_witness :
  isCallable (VTuple [VStr "a"; VStr "b"]) = false
  ∧ as_tuple (VTuple [VStr "a"; VStr "b"]) = Some [VStr "a"; VStr "b"]
  ∧ __init__ 20 (VTuple [VStr "a"; VStr "b"]) VNone VNone (start calm)
    = (Raise (Exn (Builtin TypeError)
                "not all arguments converted during string formatting"),
       start calm).
Proof.
  split; [reflexivity|]. split; [reflexivity|].
  exact (init_unpacks_tuple_argument 20 (VTuple [VStr "a"; VStr "b"])
           VNone VNone (start calm) [VStr "a"; VStr "b"] eq_refl eq_refl).
Defined.

(** The empty tuple leaves the conversion without argument, and a tuple of
    one item is described by its item. *)
Example init_on_the_empty_tuple :
  __init__ 20 (VTuple []) VNone VNone (start calm)
  = (Raise (Exn (Builtin TypeError)
              "not enough arguments for format string"),
     start calm).
Proof. reflexivity. Qed.

Example init_on_a_tuple_of_one :
  __init__ 20 (VTuple [VStr "a"]) VNone VNone (start calm)
  = (Raise (Exn (Builtin TypeError)
              "nose.case.Test called with argument 'a' that is not callable. A callable is required."),
     start calm).
Proof. reflexivity. Qed.

(** A string is not callable, and is described; [the_test] is callable
    and gets its wrapper. *)
Example init_on_a_string :
  isCallable (VStr "abc") = false
  ∧ __init__ 20 (VStr "abc") VNone VNone (start calm)
    = (Raise (Exn (Builtin TypeError)
                "nose.case.Test called with argument 'abc' that is not callable. A callable is required."),
       start calm)
  ∧ (__init__ 20 the_test VNone VNone (start calm)).1 = Ok adapter
  ∧ isCallable (test adapter) = true.
Proof.
  split; [reflexivity|]. split.
  - exact (init_describes_non_callable 20 (VStr "abc") VNone VNone
             (start calm) eq_refl eq_refl).
  - split; [reflexivity|].
    by eapply (init_Ok_callable 20 the_test VNone VNone (start calm) adapter).
Qed.

(** The plugins have no description, and the test describes itself by its
    string form: [None]. A description of the plugins comes back as it
    is. And when the documentation of the test cannot be stripped, the
    exception of that step is the outcome. *)
Lemma shortDescription_absent_when_equal_to_str_of_test_witness :
  shortDescription adapter (start (described VNone (VStr "x") VNone "x"))
  = (Ok VNone, start (described VNone (VStr "x") VNone "x"))
  ∧ shortDescription adapter (start (described (VStr "p") (VStr "x") VNone "x"))
    = (Ok (VStr "p"), start (described (VStr "p") (VStr "x") VNone "x"))
  ∧ shortDescription (rt := Tables.runtime) adapter
      (Tables.start Tables.awkward_undescribed)
    = (Raise Tables.not_callable, Tables.start Tables.awkward_undescribed).
Proof.
  split; [|split].
  - edestruct (shortDescription_absent_when_equal_to_str_of_test adapter
                 (start (described VNone (VStr "x") VNone "x")))
      as (_ & Habsent & _); [by cbv..|].
    exact (Habsent (start (described VNone (VStr "x") VNone "x"))
             test_shortDescription (described VNone (VStr "x") VNone "x") "x"
             (described VNone (VStr "x") VNone "x")
             (described VNone (VStr "x") VNone "x")
             eq_refl eq_refl eq_refl eq_refl eq_refl).
  - edestruct (shortDescription_absent_when_equal_to_str_of_test adapter
                 (start (described (VStr "p") (VStr "x") VNone "x")))
      as (Hplugin & _); [by cbv..|].
    by rewrite Hplugin.
  - destruct (shortDescription_absent_when_equal_to_str_of_test
                (rt := Tables.runtime) adapter
                (Tables.start Tables.awkward_undescribed)
                (VObj 8) Tables.awkward_undescribed VNone
                Tables.awkward_undescribed eq_refl eq_refl)
      as (_ & _ & Hstrip).
    exact (Hstrip Tables.not_callable
             (Tables.start Tables.awkward_undescribed) eq_refl eq_refl).
Defined.

(** C8 as stated fails: the description the plugins supply is returned
    even when it is the string form of the adapter. *)
Lemma shortDescription_repeats_string_form :
  (__str__ adapter (start (described (VStr "x") VNone VNone "x"))).1 = Ok "x"
  ∧ (shortDescription adapter
       (start (described (VStr "x") VNone VNone "x"))).1
    = Ok (VStr "x").
Proof. by split. Qed.

(** The comparison is with [str(self.test)]: when a plugin names the
    adapter, a description equal to that name is returned as well. *)
Example shortDescription_equal_to_plugin_name :
  (__str__ adapter (start (described VNone (VStr "N") (VStr "N") "x"))).1
  = Ok "N"
  ∧ (shortDescription adapter
       (start (described VNone (VStr "N") (VStr "N") "x"))).1
    = Ok (VStr "N").
Proof. by split. Qed.

(** C9 as stated fails: nothing is cached. When the [context] attribute of
    the wrapped test is assigned between two reads, the second read sees
    the new value. *)
Lemma context_is_not_memoized : ¬ memoized adapter.
Proof.
  intros Hmemo.
  specialize (Hmemo (setattr the_test "context" (VStr "B"))
                (start (with_context (VStr "A"))) (VStr "A") (VStr "B")
                (start (with_context (VStr "B"))) eq_refl).
  discriminate.
Qed.

End Construction_examples.

Section Case_examples.
Import Example.

(** The address of a generated test is that of its generator. *)
Lemma address_from_descriptor_witness :
  test_generator ≠ VNone
  ∧ (FunctionTestCase.address
       (FunctionTestCase.__init__ check VNone VNone (VTuple [VStr "a"])
          test_generator) (start calm)).1
    = Ok (address_of test_generator)
  ∧ address_of test_generator ≠ address_of check
  ∧ (FunctionTestCase.address
       (FunctionTestCase.__init__ check VNone VNone (VTuple []) VNone)
       (start calm)).1
    = Ok (address_of check).
Proof.
  destruct (address_from_descriptor check VNone VNone (VTuple [VStr "a"])
              test_generator (start calm)) as [Hdesc _].
  destruct (address_from_descriptor check VNone VNone (VTuple [])
              test_generator (start calm)) as [_ Hnone].
  split; [discriminate|]. split; [|split].
  - rewrite Hdesc; [reflexivity | discriminate].
  - discriminate.
  - by rewrite Hnone.
Defined.

(** Two cases built from the same method of [TestThing], a class with
    the allocation of [object]: instances 1 and 2. *)
Lemma instances_are_isolated_witness :
  let instantiate := MethodTestCase.new construct in
  let first :=
    MethodTestCase.__init__ instantiate method0 VNone (VTuple []) VNone loaded in
  let second :=
    MethodTestCase.__init__ instantiate method0 VNone (VTuple []) VNone first.2 in
  first.1 = Ok (case_on 1)
  ∧ second.1 = Ok (case_on 2)
  ∧ MethodTestCase.allocates instantiate test_class
  ∧ (∀ body o h3,
       MethodTestCase.assign_all 1 body second.2 = (o, h3) →
       MethodTestCase.attrs h3 2 = MethodTestCase.attrs second.2 2).
Proof.
  intros instantiate first second.
  assert (first = (Ok (case_on 1), first.2)) as H1 by (by vm_compute).
  assert (second = (Ok (case_on 2), second.2)) as H2 by (by vm_compute).
  assert (is_Some (MethodTestCase.attrs first.2 (MethodTestCase.inst (case_on 1))))
    as Hlive by (eexists; by vm_compute).
  pose proof (new_allocates construct test_class) as Halloc.
  destruct (instances_are_isolated instantiate _ _ _ _ _ _ _ _ _ _ _ _ _ _
              H1 Hlive H2 Halloc Halloc) as (_ & _ & _ & Hframe).
  split; [by vm_compute|]. split; [by vm_compute|]. split; [done|].
  exact Hframe.
Defined.

(** C6 as stated fails: the class decides what its call returns. With a
    class whose [__new__] returns the instance it already has, the
    instance of a case is not new, two cases hold the same instance, and
    what the body of the first assigns is seen by the second. *)
Lemma shared_instance_is_not_isolated :
  let first :=
    MethodTestCase.__init__ shared method0 VNone (VTuple []) VNone loaded in
  let second :=
    MethodTestCase.__init__ shared method0 VNone (VTuple []) VNone first.2 in
  let after :=
    (MethodTestCase.assign_all (MethodTestCase.inst (case_on 0))
       [("seen", VStr "yes")] second.2).2 in
  first.1 = Ok (case_on 0)
  ∧ second.1 = Ok (case_on 0)
  ∧ MethodTestCase.inst (case_on 0) ∈ dom (MethodTestCase.objects loaded)
  ∧ MethodTestCase.attrs second.2 (MethodTestCase.inst (case_on 0)) = Some ∅
  ∧ MethodTestCase.attrs after (MethodTestCase.inst (case_on 0))
    = Some {[ "seen" := VStr "yes" ]}.
Proof.
  intros first second after.
  split; [by vm_compute|]. split; [by vm_compute|]. split.
  - apply elem_of_dom. eexists. by vm_compute.
  - split; by vm_compute.
Qed.

(** The same with a class whose instances are new objects that have one
    dictionary: the instances 1 and 2 of the two cases differ, and what
    the body of the first assigns is seen on the second. *)
Example one_state_is_not_isolated :
  let first :=
    MethodTestCase.__init__ one_state method0 VNone (VTuple []) VNone loaded in
  let second :=
    MethodTestCase.__init__ one_state method0 VNone (VTuple []) VNone first.2 in
  let after :=
    (MethodTestCase.assign_all 1 [("seen", VStr "yes")] second.2).2 in
  first.1 = Ok (case_on 1)
  ∧ second.1 = Ok (case_on 2)
  ∧ MethodTestCase.attrs second.2 2 = Some ∅
  ∧ MethodTestCase.attrs after 2 = Some {[ "seen" := VStr "yes" ]}.
Proof. intros first second after. repeat split; by vm_compute. Qed.

(** A plain function is refused; [method0] is bound to a live instance of
    a class that can be instantiated. *)
Lemma init_rejects_plain_function_witness :
  MethodTestCase.isfunction (VFunction test_it) = true
  ∧ MethodTestCase.__init__ (MethodTestCase.new construct)
      (VFunction test_it) VNone (VTuple []) VNone loaded
    = (Raise (Exn (Builtin ValueError) MethodTestCase.unbound_msg), loaded)
  ∧ (∃ r f i dict,
       method0 = VMethod r f
       ∧ MethodTestCase.objects loaded !! r = Some i
       ∧ MethodTestCase.cls (case_on 1) = MethodTestCase.inst_class i
       ∧ construct (MethodTestCase.inst_class i) = Ok dict).
Proof.
  destruct (init_rejects_plain_function (MethodTestCase.new construct)
              (VFunction test_it) VNone (VTuple []) VNone loaded)
    as [Hfun _].
  destruct (init_rejects_plain_function (MethodTestCase.new construct)
              method0 VNone (VTuple []) VNone loaded) as [_ Hok].
  split; [reflexivity|]. split; [exact (Hfun eq_refl)|].
  destruct (Hok (case_on 1)
              (MethodTestCase.allocated loaded 1 test_class 1
                 {[ "seen" := VNone ]}))
    as (_ & r & f & i & Hm & Hr & Hc & Hi); [by vm_compute|].
  apply new_fresh in Hi as (_ & k & dict & _ & Hd & _).
  by exists r, f, i, dict.
Defined.

(** The first case's body writes [seen]; the second case's instance still
    has what the constructor gave it. *)
Example body_of_first_case_not_seen_by_second :
  let instantiate := MethodTestCase.new construct in
  let first :=
    MethodTestCase.__init__ instantiate method0 VNone (VTuple []) VNone loaded in
  let second :=
    MethodTestCase.__init__ instantiate method0 VNone (VTuple []) VNone first.2 in
  let after :=
    (MethodTestCase.assign_all 1 [("seen", VStr "yes")] second.2).2 in
  MethodTestCase.attrs after 1 = Some {[ "seen" := VStr "yes" ]}
  ∧ MethodTestCase.attrs after 2 = Some {[ "seen" := VNone ]}.
Proof. by vm_compute. Qed.

End Case_examples.

(** * Properties of the string methods *)
Section Str_facts.

Lemma isspace_newline : isspace newline = true.
Proof. reflexivity. Qed.

Lemma lstrip_head s : head_is_space (lstrip s) = false.
Proof.
  induction s as [|c s IH]; simpl; [done|].
  destruct (isspace c) eqn:Hc; [done|]. simpl. by rewrite Hc.
Qed.

Lemma lstrip_blank s : lstrip s = EmptyString ↔ blank s = true.
Proof.
  induction s as [|c s IH]; simpl; [done|].
  destruct (isspace c); simpl; [done|]. split; discriminate.
Qed.

Lemma lstrip_occurs c s : occurs c (lstrip s) = true → occurs c s = true.
Proof.
  induction s as [|c' s IH]; simpl; [done|].
  destruct (isspace c'); simpl; [|done].
  intros H. rewrite (IH H). by rewrite orb_true_r.
Qed.

Lemma rstrip_empty s : rstrip s = EmptyString ↔ blank s = true.
Proof.
  induction s as [|c s IH]; simpl; [done|].
  destruct (rstrip s) as [|c' r] eqn:Hr.
  - destruct (isspace c); simpl.
    + split; [intros _; by apply IH | done].
    + split; discriminate.
  - split; [discriminate|]. intros [_ Hb]%andb_true_iff.
    apply IH in Hb. discriminate.
Qed.

Lemma rstrip_last s : last_is_space (rstrip s) = false.
Proof.
  induction s as [|c s IH]; simpl; [done|].
  destruct (rstrip s) as [|c' r] eqn:Hr.
  - destruct (isspace c) eqn:Hc; simpl; [done|]. by rewrite Hc.
  - simpl in *. done.
Qed.

Lemma rstrip_head c s :
  isspace c = false → ∃ r, rstrip (String c s) = String c r.
Proof.
  intros Hc. simpl. destruct (rstrip s) as [|c' r].
  - rewrite Hc. by eexists.
  - by eexists.
Qed.

Lemma rstrip_occurs c s : occurs c (rstrip s) = true → occurs c s = true.
Proof.
  induction s as [|c' s IH]; simpl; [done|].
  destruct (rstrip s) as [|c'' r] eqn:Hr.
  - destruct (isspace c'); simpl; [done|].
    rewrite orb_false_r. intros ->. done.
  - simpl. intros [H|H]%orb_true_iff.
    + by rewrite H.
    + rewrite IH; [by rewrite orb_true_r|]. done.
Qed.

Lemma strip_head s : head_is_space (strip s) = false.
Proof.
  unfold strip. pose proof (lstrip_head s) as Hh.
  destruct (lstrip s) as [|c t]; [done|]. simpl in Hh.
  destruct (rstrip_head c t Hh) as [r ->]. done.
Qed.

Lemma strip_last s : last_is_space (strip s) = false.
Proof. apply rstrip_last. Qed.

Lemma strip_occurs c s : occurs c (strip s) = true → occurs c s = true.
Proof. intros H. by apply lstrip_occurs, rstrip_occurs. Qed.

Lemma strip_blank s : strip s = EmptyString ↔ blank s = true.
Proof.
  unfold strip. rewrite rstrip_empty. split.
  - intros Hb. apply lstrip_blank.
    pose proof (lstrip_head s) as Hh.
    destruct (lstrip s) as [|c t]; [done|]. simpl in *.
    by rewrite Hh in Hb.
  - intros Hb. apply lstrip_blank in Hb. by rewrite Hb.
Qed.

Lemma first_line_no_newline s : occurs newline (first_line s) = false.
Proof.
  induction s as [|c s IH]; simpl; [done|].
  destruct (Ascii.eqb c newline) eqn:Hc; simpl; [done|]. by rewrite Hc.
Qed.

Lemma first_line_head c s :
  isspace c = false → first_line (String c s) = String c (first_line s).
Proof.
  intros Hc. simpl. destruct (Ascii.eqb c newline) eqn:Hn; [|done].
  apply Ascii.eqb_eq in Hn as ->. by rewrite isspace_newline in Hc.
Qed.

(** The first line of a documentation string, as both [shortDescription]
    methods of the cases cut it out. *)
Lemma summary_line d :
  let r := strip (first_line (strip d)) in
  head_is_space r = false
  ∧ last_is_space r = false
  ∧ occurs newline r = false
  ∧ (r = EmptyString ↔ blank d = true).
Proof.
  intros r. split; [apply strip_head|]. split; [apply strip_last|]. split.
  - destruct (occurs newline r) eqn:Ho; [|done].
    apply strip_occurs in Ho. by rewrite first_line_no_newline in Ho.
  - rewrite <- strip_blank. unfold r. split.
    + intros Hr. pose proof (strip_head d) as Hh.
      destruct (strip d) as [|c t] eqn:Hd; [done|]. simpl in Hh.
      rewrite (first_line_head _ _ Hh) in Hr.
      unfold strip in Hr. simpl in Hr. rewrite Hh in Hr.
      destruct (rstrip_head c (first_line t) Hh) as [x Hx].
      rewrite Hx in Hr. discriminate.
    + by intros ->.
Qed.

End Str_facts.

(** * More properties of the wrapper [Test] *)
Section Test_more.
Import Test.
Context {W : Type} `{rt : Runtime W}.
Local Open Scope list_scope.

(** ** The calls of one run *)

Lemma proxied_trace self result s :
  ∃ evs, trace (proxied self result s).2 = evs ++ trace s
         ∧ evs `sublist_of`
             [EvResultProxy (resultProxy self) result (this self)].
Proof.
  unfold proxied. destruct (truth (resultProxy self)).
  - eexists [_]. unfold bind, emit, call, ext. simpl.
    by destruct (rt_call _ _ _) as [[v|e] w].
  - exists []. split; [done | apply sublist_nil_l].
Qed.

Lemma beforeTest_trace self r s :
  ∃ evs, trace (beforeTest self r s).2 = evs ++ trace s
         ∧ evs `sublist_of` [EvBeforeTest r (test self)].
Proof.
  unfold beforeTest, try_except_else, getattr, ext.
  destruct (rt_getattr r "beforeTest" (world s)) as [[hook|e] w]; simpl.
  - eexists [_]. unfold bind, emit, call, ext. simpl.
    by destruct (rt_call _ _ _) as [[v|e] w'].
  - exists []. split; [|apply sublist_nil_l].
    by destruct (isinstance e AttributeError).
Qed.

Lemma afterTest_trace self r s :
  ∃ evs, trace (afterTest self r s).2 = evs ++ trace s
         ∧ evs `sublist_of` [EvAfterTest r (test self)].
Proof.
  unfold afterTest, try_except_else, getattr, ext.
  destruct (rt_getattr r "afterTest" (world s)) as [[hook|e] w]; simpl.
  - eexists [_]. unfold bind, emit, call, ext. simpl.
    by destruct (rt_call _ _ _) as [[v|e] w'].
  - exists []. split; [|apply sublist_nil_l].
    by destruct (isinstance e AttributeError).
Qed.

Lemma runTest_trace self r s :
  ∃ callee pm evs,
    trace (runTest self r s).2 = evs ++ trace s
    ∧ evs `sublist_of` [EvTest callee r; EvPrepareTestCase pm (this self)].
Proof.
  unfold runTest, bind, getattr, call, emit, ext.
  destruct (rt_getattr (config self) "plugins" (world s)) as [[pm|e] w1];
    simpl; [|by exists VNone, VNone, []; split; [|apply sublist_nil_l]].
  destruct (rt_getattr pm "prepareTestCase" w1) as [[prep|e] w2];
    simpl; [|by exists VNone, VNone, []; split; [|apply sublist_nil_l]].
  destruct (rt_call prep [this self] w2) as [[plug|e] w3]; simpl.
  - eexists _, pm, [_; _].
    destruct (rt_call _ [r] w3) as [[v|e] w4]; simpl; by split.
  - exists VNone, pm, [EvPrepareTestCase pm (this self)]. split; [done|].
    by apply sublist_cons, sublist_skip.
Qed.

Lemma guarded_trace self r s :
  ∃ err callee pm evs,
    trace (guarded self r s).2 = evs ++ trace s
    ∧ evs `sublist_of`
        [EvAddError r (this self) err; EvTest callee r;
         EvPrepareTestCase pm (this self); EvBeforeTest r (test self)].
Proof.
  destruct (beforeTest_trace self r s) as (bevs & Hb & Hbs).
  unfold guarded, try_except. unfold bind at 1.
  destruct (beforeTest self r s) as [[[]|e] s1] eqn:Hbefore; simpl in Hb.
  - destruct (runTest_trace self r s1) as (callee & pm & revs & Hr & Hrs).
    destruct (runTest self r s1) as [[[]|e] s2] eqn:Hrun; simpl in Hr.
    + exists VNone, callee, pm, (revs ++ bevs). simpl.
      rewrite Hr, Hb, (assoc app). split; [done|].
      apply sublist_cons.
      by apply (sublist_app revs [_; _] bevs [_]).
    + exists (VExcInfo e), callee, pm. simpl.
      destruct (isinstance e KeyboardInterrupt); simpl.
      { exists (revs ++ bevs). rewrite Hr, Hb, (assoc app). split; [done|].
        apply sublist_cons.
        by apply (sublist_app revs [_; _] bevs [_]). }
      destruct (isinstance e Exception); simpl.
      2:{ exists (revs ++ bevs). rewrite Hr, Hb, (assoc app). split; [done|].
          apply sublist_cons.
          by apply (sublist_app revs [_; _] bevs [_]). }
      unfold bind, getattr, call, emit, ext.
      destruct (rt_getattr r "addError" (world s2)) as [[f|e'] w3]; simpl.
      * exists (EvAddError r (this self) (VExcInfo e) :: revs ++ bevs).
        split.
        -- destruct (rt_call f _ w3) as [[v|e'] w4]; simpl;
             by rewrite Hr, Hb, (assoc app).
        -- apply sublist_skip.
           by apply (sublist_app revs [_; _] bevs [_]).
      * exists (revs ++ bevs). rewrite Hr, Hb, (assoc app). split; [done|].
        apply sublist_cons.
        by apply (sublist_app revs [_; _] bevs [_]).
  - exists (VExcInfo e), VNone, VNone. simpl.
    assert (bevs `sublist_of`
              [EvTest VNone r; EvPrepareTestCase VNone (this self);
               EvBeforeTest r (test self)]) as Hsub
      by (by apply sublist_cons, sublist_cons).
    destruct (isinstance e KeyboardInterrupt); simpl.
    { exists bevs. split; [done|]. by apply sublist_cons. }
    destruct (isinstance e Exception); simpl.
    2:{ exists bevs. split; [done|]. by apply sublist_cons. }
    unfold bind, getattr, call, emit, ext.
    destruct (rt_getattr r "addError" (world s1)) as [[f|e'] w3]; simpl.
    + exists (EvAddError r (this self) (VExcInfo e) :: bevs). split.
      * destruct (rt_call f _ w3) as [[v|e'] w4]; simpl; by rewrite Hb.
      * by apply sublist_skip.
    + exists bevs. split; [done|]. by apply sublist_cons.
Qed.

(** X1: whatever the collaborators do, one [run] issues each of its
    calls at most once and in the order of the source: the proxy factory,
    the before-hook, [prepareTestCase], the test, [addError], the
    after-hook; the hooks, the test and [addError] all get the same
    result object. *)
Theorem run_calls_in_order self result s :
  ∃ r err callee pm evs,
    trace (run self result s).2 = evs ++ trace s
    ∧ evs `sublist_of`
        [EvAfterTest r (test self); EvAddError r (this self) err;
         EvTest callee r; EvPrepareTestCase pm (this self);
         EvBeforeTest r (test self);
         EvResultProxy (resultProxy self) result (this self)].
Proof.
  destruct (proxied_trace self result s) as (pevs & Hp & Hps).
  unfold run. unfold bind at 1.
  destruct (proxied self result s) as [[r|e] s1]; simpl in Hp.
  - destruct (guarded_trace self r s1) as (err & callee & pm & gevs & Hg & Hgs).
    destruct (afterTest_trace self r (guarded self r s1).2)
      as (aevs & Ha & Has).
    exists r, err, callee, pm, (aevs ++ gevs ++ pevs). split.
    + unfold try_finally. destruct (guarded self r s1) as [o s2].
      simpl in *.
      destruct (afterTest self r s2) as [[[]|e] s3]; simpl in *;
        by rewrite Ha, Hg, Hp, !(assoc app).
    + apply (sublist_app aevs [_] (gevs ++ pevs) (_ :: _ :: _ :: _ :: [_]));
        [done|].
      by apply (sublist_app gevs [_; _; _; _] pevs [_]).
  - exists VNone, VNone, VNone, VNone, pevs. split; [done|].
    by do 5 apply sublist_cons.
Qed.

(** X2: [run] drops no exception silently. If the body of the inner
    [try] raised and [run] nevertheless returned normally, the exception
    was an [Exception], not an interrupt, and it was handed to
    [result.addError]. *)
Theorem run_returns_only_after_report self result s r1 s1 e s3 s' :
  proxied self result s = (Ok r1, s1) →
  (beforeTest self r1;;; runTest self r1) s1 = (Raise e, s3) →
  run self result s = (Ok tt, s') →
  isinstance e KeyboardInterrupt = false
  ∧ isinstance e Exception = true
  ∧ calls is_addError s'
    = EvAddError r1 (this self) (VExcInfo e) :: calls is_addError s.
Proof.
  intros Hp Hbody Hrun.
  rewrite (run_unfold _ _ _ _ _ Hp) in Hrun.
  assert (∀ e' s2, guarded self r1 s1 = (Raise e', s2) → False) as Hno.
  { intros e' s2 Hg. unfold try_finally in Hrun. rewrite Hg in Hrun.
    by destruct (afterTest self r1 s2) as [[[]|e''] s4]. }
  destruct (isinstance e KeyboardInterrupt) eqn:Hk.
  { destruct (Hno _ _ (guarded_reraises _ _ _ _ _ Hbody Hk)). }
  destruct (isinstance e Exception) eqn:He.
  2:{ destruct (Hno _ _ (guarded_escapes _ _ _ _ _ Hbody Hk He)). }
  split; [done|]. split; [done|].
  destruct (rt_getattr r1 "addError" (world s3)) as [[f|e'] w4] eqn:Ha.
  - pose proof (guarded_reports _ _ _ _ _ _ _ Hbody Hk He Ha) as Hg.
    unfold try_finally in Hrun. rewrite Hg in Hrun.
    match type of Hrun with
    | context [afterTest self r1 ?st] =>
        pose proof (afterTest_silent is_addError self r1 eq_refl st) as Hsil;
        destruct (afterTest self r1 st) as [[[]|e''] s4]; [|done]
    end.
    injection Hrun as _ <-. simpl in Hsil. rewrite Hsil.
    rewrite calls_cons by done. f_equal.
    change (calls is_addError s3 = calls is_addError s).
    rewrite (silent_step _ _ _ _ _ (body_silent is_addError self r1
               ltac:(done) ltac:(done) ltac:(done)) Hbody).
    by rewrite (silent_step _ _ _ _ _ (proxied_silent is_addError self
                  result ltac:(done)) Hp).
  - exfalso. eapply Hno. rewrite (guarded_raised _ _ _ _ _ Hbody). simpl.
    rewrite Hk, He. unfold bind, getattr, ext. by rewrite Ha.
Qed.

(** X3: when the before-hook fails, with whatever exception, the test is
    not invoked in that run. *)
Theorem run_beforeTest_failure_skips_test self result s r1 s1 e s2 :
  proxied self result s = (Ok r1, s1) →
  beforeTest self r1 s1 = (Raise e, s2) →
  calls is_test (run self result s).2 = calls is_test s.
Proof.
  intros Hp Hb. rewrite (run_unfold _ _ _ _ _ Hp).
  rewrite silent_try_finally_from by (by apply afterTest_silent).
  pose proof (bind_Raise _ (fun _ => runTest self r1) _ _ _ Hb) as Hbody.
  rewrite (guarded_raised _ _ _ _ _ Hbody).
  assert (silent is_test
            (dispatch
               [(KeyboardInterrupt, fun e => raise e);
                (Exception, fun e =>
                   let err := VExcInfo e in
                   addError <- getattr r1 "addError";;
                   emit (EvAddError r1 (this self) err);;;
                   _ <- call addError [this self; err];;
                   ret tt)] e : M (state W) unit)) as Hd.
  { apply silent_dispatch. unfold getattr, call.
    repeat first
      [ apply silent_ret | apply silent_raise | apply silent_ext
      | apply silent_emit; reflexivity
      | apply silent_bind; [|intros ?]
      | apply Forall_cons; split; [intros ?|]
      | apply Forall_nil_2
      | progress simpl ]. }
  rewrite Hd.
  rewrite (silent_step _ _ _ _ _ (beforeTest_silent is_test self r1
             ltac:(done)) Hb).
  by rewrite (silent_step _ _ _ _ _ (proxied_silent is_test self
                result ltac:(done)) Hp).
Qed.

(** X4: when the result-proxy factory is set and raises, [run] ends with
    that exception having made no other call: no hook, no test, no
    [addError]. *)
Theorem run_proxy_failure_calls_nothing self result s e w :
  truth (resultProxy self) = true →
  rt_call (resultProxy self) [result; this self] (world s) = (Raise e, w) →
  run self result s
  = (Raise e,
     State w (EvResultProxy (resultProxy self) result (this self) :: trace s)).
Proof.
  intros Ht Hc. apply run_proxy_raises.
  unfold proxied. rewrite Ht. unfold bind, emit, call, ext. simpl.
  by rewrite Hc.
Qed.

(** X5: an exception that is neither an interrupt nor an [Exception]
    (a [SystemExit], say) is not reported: no [addError] call is made,
    the after-hook (when present) is still called once, and, [afterTest]
    returning, the exception leaves [run]. *)
Theorem run_passes_on_other_exceptions self result s r1 s1 e s3 :
  proxied self result s = (Ok r1, s1) →
  (beforeTest self r1;;; runTest self r1) s1 = (Raise e, s3) →
  isinstance e KeyboardInterrupt = false →
  isinstance e Exception = false →
  calls is_addError (run self result s).2 = calls is_addError s
  ∧ (∀ hook w, rt_getattr r1 "afterTest" (world s3) = (Ok hook, w) →
       calls is_afterTest (run self result s).2
       = EvAfterTest r1 (test self) :: calls is_afterTest s)
  ∧ (∀ s4, afterTest self r1 s3 = (Ok tt, s4) →
       run self result s = (Raise e, s4)).
Proof.
  intros Hp Hbody Hk He.
  destruct (run_lets_other_exceptions_through _ _ _ _ _ _ _ Hp Hbody Hk He)
    as [Hno Hout].
  split; [done|]. split; [|done].
  intros hook w Hh. rewrite (run_unfold _ _ _ _ _ Hp).
  unfold try_finally. rewrite (guarded_escapes _ _ _ _ _ Hbody Hk He).
  pose proof (afterTest_present self r1 s3 hook w Hh) as Ha.
  assert (calls is_afterTest s3 = calls is_afterTest s) as Hs.
  { rewrite (silent_step _ _ _ _ _ (body_silent is_afterTest self r1
               ltac:(done) ltac:(done) ltac:(done)) Hbody).
    by rewrite (silent_step _ _ _ _ _ (proxied_silent is_afterTest self
                  result ltac:(done)) Hp). }
  destruct (afterTest self r1 s3) as [[[]|e'] s4]; simpl in *;
    by rewrite Ha, Hs.
Qed.

(** X6: an exception raised by [afterTest] is what leaves [run],
    whatever the inner [try] statement ended with: a normal completion
    or a reported error turns into that exception, an exception in
    flight is replaced by it. *)
Theorem run_afterTest_failure_wins self result s r1 s1 o s2 e s3 :
  proxied self result s = (Ok r1, s1) →
  guarded self r1 s1 = (o, s2) →
  afterTest self r1 s2 = (Raise e, s3) →
  run self result s = (Raise e, s3).
Proof. apply run_afterTest_failure. Qed.

(** ** The optional hooks *)

(** X7: a result without the hook is no error: [afterTest] and
    [beforeTest] return having called nothing. But an exception raised by
    the hook itself, an [AttributeError] included, is not taken for a
    missing hook: it leaves the method. *)
Theorem hooks_optional_not_silenced self r s :
  (∀ e w, rt_getattr r "afterTest" (world s) = (Raise e, w) →
     isinstance e AttributeError = true →
     afterTest self r s = (Ok tt, State w (trace s)))
  ∧ (∀ hook w e w',
       rt_getattr r "afterTest" (world s) = (Ok hook, w) →
       rt_call hook [test self] w = (Raise e, w') →
       afterTest self r s
       = (Raise e, State w' (EvAfterTest r (test self) :: trace s)))
  ∧ (∀ e w, rt_getattr r "beforeTest" (world s) = (Raise e, w) →
       isinstance e AttributeError = true →
       beforeTest self r s = (Ok tt, State w (trace s)))
  ∧ (∀ hook w e w',
       rt_getattr r "beforeTest" (world s) = (Ok hook, w) →
       rt_call hook [test self] w = (Raise e, w') →
       beforeTest self r s
       = (Raise e, State w' (EvBeforeTest r (test self) :: trace s))).
Proof.
  split; [|split; [|split]].
  - intros e w Hg He. unfold afterTest, try_except_else, getattr, ext.
    rewrite Hg. simpl. by rewrite He.
  - intros hook w e w' Hg Hc.
    unfold afterTest, try_except_else, getattr, call, emit, ext, bind.
    rewrite Hg. simpl. by rewrite Hc.
  - intros e w Hg He. unfold beforeTest, try_except_else, getattr, ext.
    rewrite Hg. simpl. by rewrite He.
  - intros hook w e w' Hg Hc.
    exact (beforeTest_hook_raises _ _ _ _ _ _ _ Hg Hc).
Qed.

(** ** [runTest] *)

(** X8: when [prepareTestCase] returns something other than [None], that
    is what [runTest] calls with the result, and the wrapped test is not
    called; the outcome of [runTest] is the outcome of that call. *)
Theorem runTest_calls_substitute self r s pm w1 prep w2 plug w3 :
  rt_getattr (config self) "plugins" (world s) = (Ok pm, w1) →
  rt_getattr pm "prepareTestCase" w1 = (Ok prep, w2) →
  rt_call prep [this self] w2 = (Ok plug, w3) →
  plug ≠ VNone →
  runTest self r s
  = (match (rt_call plug [r] w3).1 with
     | Ok _ => Ok tt
     | Raise e => Raise e
     end,
     State (rt_call plug [r] w3).2
       (EvTest plug r :: EvPrepareTestCase pm (this self) :: trace s)).
Proof.
  intros Hp Hg Hc Hn. unfold runTest, bind, getattr, call, emit, ext.
  rewrite Hp. simpl. rewrite Hg. simpl. rewrite Hc. simpl.
  destruct plug; try done;
    by destruct (rt_call _ [r] w3) as [[? | ?] ?].
Qed.

(** ** [shortDescription], [context], [__repr__] *)

(** X9: an [Exception] raised while asking the wrapped test for its
    [shortDescription()] (the lookup or the call) is swallowed: with no
    description from the plugins, the adapter's [shortDescription]
    returns [None], also when [str(test)] then raises an [Exception]. *)
Theorem shortDescription_swallows_failure
    self s describeTest w0 w1 s2 e s3 o w5 :
  rt_getattr (plugins self) "describeTest" (world s) = (Ok describeTest, w0) →
  rt_call describeTest [this self] w0 = (Ok VNone, w1) →
  strip_testMethodDoc (test self) (State w1 (trace s)) = (Ok tt, s2) →
  (f <- getattr (test self) "shortDescription";; call f []) s2
  = (Raise e, s3) →
  isinstance e Exception = true →
  rt_str (test self) (world s3) = (o, w5) →
  (∀ e', o = Raise e' → isinstance e' Exception = true) →
  shortDescription self s = (Ok VNone, State w5 (trace s3)).
Proof.
  intros Hg Hc Hs Hd He Hstr Ho.
  assert (∀ k : value → M (state W) value,
            bind (getattr (plugins self) "describeTest")
              (fun f => bind (call f [this self]) k) s
            = k VNone (State w1 (trace s))) as Hhead.
  { intros k. unfold bind, getattr, call, ext. rewrite Hg. simpl.
    by rewrite Hc. }
  unfold shortDescription. rewrite Hhead. simpl.
  rewrite (bind_Ok _ _ _ _ _ Hs).
  unfold bind at 1. unfold try_except at 1.
  rewrite Hd. simpl. rewrite He. simpl.
  unfold bind, try_except, str, ext. rewrite Hstr.
  destruct o as [str0|e']; simpl; [done|].
  by rewrite (Ho e' eq_refl).
Qed.

(** X10: a description of the wrapped test that differs from
    [str(test)] is returned as it is; so it is when [str(test)] raises
    an [Exception]. *)
Theorem shortDescription_returns_own_description
    self s describeTest w0 w1 s2 f w3 desc w4 o w5 :
  rt_getattr (plugins self) "describeTest" (world s) = (Ok describeTest, w0) →
  rt_call describeTest [this self] w0 = (Ok VNone, w1) →
  strip_testMethodDoc (test self) (State w1 (trace s)) = (Ok tt, s2) →
  rt_getattr (test self) "shortDescription" (world s2) = (Ok f, w3) →
  rt_call f [] w3 = (Ok desc, w4) →
  rt_str (test self) w4 = (o, w5) →
  match o with
  | Ok str0 => eq_str desc str0 = false
  | Raise e' => isinstance e' Exception = true
  end →
  shortDescription self s = (Ok desc, State w5 (trace s2)).
Proof.
  intros Hg Hc Hs Hf Hcall Hstr Ho.
  unfold shortDescription, bind at 1, getattr, ext. rewrite Hg. simpl.
  unfold bind at 1, call, ext. simpl. rewrite Hc. simpl.
  rewrite (bind_Ok _ _ _ _ _ Hs).
  unfold bind, try_except, str, ext.
  rewrite Hf. simpl. rewrite Hcall. simpl. rewrite Hstr.
  destruct o as [str0|e']; simpl; by rewrite Ho.
Qed.

(** X11: [AttributeError] never leaves the step of [shortDescription]
    that strips the documentation string: a wrapped test without the
    attributes, or whose documentation has no [strip], is left alone. *)
Theorem strip_testMethodDoc_never_AttributeError test0 s e s' :
  strip_testMethodDoc test0 s = (Raise e, s') →
  isinstance e AttributeError = false.
Proof.
  unfold strip_testMethodDoc, try_except.
  destruct (strip_doc test0 "_testMethodDoc" s) as [[[]|e1] s1]; [done|].
  simpl. destruct (isinstance e1 AttributeError) eqn:H1.
  - destruct (strip_doc test0 "_TestCase__testMethodDoc" s1)
      as [[[]|e2] s2]; [done|].
    simpl. destruct (isinstance e2 AttributeError) eqn:H2; [done|].
    unfold raise. by intros [= <- _].
  - unfold raise. by intros [= <- _].
Qed.

(** X12: reading [context] never raises [AttributeError]: each candidate
    that raises one, [resolve_name] included, is passed over. *)
Theorem context_never_AttributeError self s e s' :
  context self s = (Raise e, s') →
  isinstance e AttributeError = false.
Proof.
  unfold context, _context, try_except, bind, getattr, call, ext, ret.
  destruct (rt_getattr (test self) "context" (world s)) as [[v|e1] w1];
    simpl; [done|].
  destruct (isinstance e1 AttributeError) eqn:H1; simpl;
    [|unfold raise; by intros [= <- _]].
  destruct (rt_getattr (test self) "__class__" w1) as [[v|e2] w2];
    simpl; [done|].
  destruct (isinstance e2 AttributeError) eqn:H2; simpl;
    [|unfold raise; by intros [= <- _]].
  destruct (rt_getattr (test self) "__module__" w2) as [[m|e3] w3]; simpl.
  - destruct (rt_call rt_resolve_name [m] w3) as [[v|e4] w4]; simpl; [done|].
    destruct (isinstance e4 AttributeError) eqn:H4; simpl; [done|].
    unfold raise. by intros [= <- _].
  - destruct (isinstance e3 AttributeError) eqn:H3; simpl; [done|].
    unfold raise. by intros [= <- _].
Qed.

(** ** [__repr__] *)


End Test_more.

(** * Properties of [TestBase] *)
Section TestBase_facts.
Import TestBase.
Context {W : Type} `{rt : Runtime W}.

Lemma summary_of_str d s :
  summary (VStr d) s = (Ok (VStr (strip (first_line (strip d)))), s).
Proof. reflexivity. Qed.

Lemma truth_of_str d : d ≠ EmptyString → truth (VStr d) = true.
Proof. intros Hd. simpl. by destruct d. Qed.

(** X14: without a [description] on the test, a non-empty documentation
    string of the function that names the test gives the description:
    its first non-blank line, without white space around it and without
    a newline. The string form of the case is not asked for, even when
    the documentation is blank, in which case the description is
    empty. *)
Theorem shortDescription_of_doc test0 func arg0 str_self s e w1 d w2 :
  rt_getattr test0 "description" (world s) = (Raise e, w1) →
  isinstance e AttributeError = true →
  rt_getattr func "__doc__" w1 = (Ok (VStr d), w2) →
  d ≠ EmptyString →
  let r := strip (first_line (strip d)) in
  shortDescription test0 (func, arg0) str_self s
  = (Ok (VStr r), State w2 (trace s))
  ∧ head_is_space r = false
  ∧ last_is_space r = false
  ∧ occurs newline r = false
  ∧ (r = EmptyString ↔ blank d = true).
Proof.
  intros Hdesc He Hdoc Hd r. split; [|apply summary_line].
  unfold shortDescription, try_except_else, getattr, ext.
  rewrite Hdesc. simpl. rewrite He.
  unfold bind at 1, try_except, ext. cbn [world trace]. rewrite Hdoc.
  rewrite (truth_of_str d Hd). cbn [negb].
  unfold bind at 1, ret at 1. by rewrite summary_of_str.
Qed.

(** X15: without a [description] on the test and without documentation
    (no [__doc__], or [None], or the empty string), the description is
    cut out of the string form of the case in the same way. *)
Theorem shortDescription_falls_back_to_str
    test0 func arg0 str_self s e w1 o w2 name s3 :
  rt_getattr test0 "description" (world s) = (Raise e, w1) →
  isinstance e AttributeError = true →
  rt_getattr func "__doc__" w1 = (o, w2) →
  match o with
  | Ok doc => truth doc = false
  | Raise e' => isinstance e' AttributeError = true
  end →
  str_self (State w2 (trace s)) = (Ok name, s3) →
  shortDescription test0 (func, arg0) str_self s
  = (Ok (VStr (strip (first_line (strip name)))), s3).
Proof.
  intros Hdesc He Hdoc Ho Hstr.
  unfold shortDescription, try_except_else, getattr, ext.
  rewrite Hdesc. simpl. rewrite He.
  unfold bind at 1, try_except, ext. cbn [world trace]. rewrite Hdoc.
  destruct o as [doc|e']; cbn [dispatch]; rewrite Ho;
    unfold bind, ret; cbn [truth negb]; by rewrite Hstr.
Qed.

(** A [description] attribute on the test is returned as it is read
    the second time, not stripped and not cut at a newline; neither the
    documentation nor the string form is looked at. *)
Theorem shortDescription_description_wins
    test0 descriptors str_self s v0 w1 o w2 :
  rt_getattr test0 "description" (world s) = (Ok v0, w1) →
  rt_getattr test0 "description" w1 = (o, w2) →
  shortDescription test0 descriptors str_self s = (o, State w2 (trace s)).
Proof.
  intros H1 H2. unfold shortDescription, try_except_else, getattr, ext.
  rewrite H1. simpl. by rewrite H2.
Qed.

End TestBase_facts.

(** * More properties of [FunctionTestCase] *)
Section FunctionTestCase_more.
Import FunctionTestCase.
Context {W : Type} `{rt : Runtime W}.

Lemma append_not_longer n x : (n ++ x)%string = n → x = EmptyString.
Proof.
  induction n as [|c n IH]; simpl; [done|]. intros [= H]. by apply IH.
Qed.

Lemma append_assoc (a b c : string) :
  ((a ++ b) ++ c)%string = (a ++ b ++ c)%string.
Proof.
  induction a as [|x a IH]; [done|].
  change (String x ((a ++ b) ++ c) = String x (a ++ b ++ c))%string.
  by rewrite IH.
Qed.

Lemma tuple_display_not_empty rs : tuple_display rs ≠ EmptyString.
Proof. unfold tuple_display. by destruct rs as [|x [|y rs]]. Qed.

(** The display of a tuple is never the empty string. *)
Lemma tuple_str_not_empty items (s s' : state W) a :
  tuple_str items s = (Ok a, s') → a ≠ EmptyString.
Proof.
  unfold tuple_str, bind.
  destruct (reprs items s) as [[rs|e] s1]; [|done].
  intros [= <- _]. apply tuple_display_not_empty.
Qed.

(** What [__str__] does after [_descriptors]. *)
Lemma str_unfold self s :
  __str__ self s
  = (name <- compat_name (_descriptors self).1;;
     module <- getattr (_descriptors self).1 "__module__";;
     m <- format_s module;;
     n <- format_s name;;
     let name := (m ++ "." ++ n)%string in
     if truth (_descriptors self).2 then
       a <- format_s (_descriptors self).2;; ret (name ++ a)%string
     else ret name) s.
Proof. unfold __str__. by destruct (_descriptors self). Qed.

(** X16: the string form of a case with a non-empty argument tuple is
    computed as the string form of the same case without arguments,
    then the display of the tuple, which runs the [__repr__] of each
    item and may fail there, and the two put together; when both are
    there the result is never the string form without arguments. *)
Theorem str_with_arguments test0 setUp tearDown D items s :
  items ≠ [] →
  __str__ (__init__ test0 setUp tearDown (VTuple items) D) s
  = (name <- __str__ (__init__ test0 setUp tearDown (VTuple []) D);;
     a <- tuple_str items;;
     ret (name ++ a)%string) s
  ∧ ∀ s1 a s2, tuple_str items s1 = (Ok a, s2) →
               ∀ name, (name ++ a)%string ≠ name.
Proof.
  intros Hi. split.
  - assert (truth (VTuple items) = true) as Ht by (by destruct items).
    rewrite str_unfold.
    change ((name <- __str__ ?c;; @?k name) s)%py
      with (match __str__ c s with
            | (Ok name, s1) => k name s1
            | (Raise e, s1) => (Raise e, s1)
            end).
    rewrite str_unfold.
    unfold _descriptors, __init__.
    cbn [descriptor arg test].
    destruct (truth D); cbn [fst snd]; rewrite Ht;
      change (truth (VTuple [])) with false; cbn [format_s];
      unfold bind;
      repeat match goal with
        | |- context [match ?m s with _ => _ end] =>
            destruct (m s) as [[?|?] ?]; simpl; try done
        | |- context [match ?k ?a ?st with _ => _ end] =>
            destruct (k a st) as [[?|?] ?]; simpl; try done
        end.
  - intros s1 a s2 Ha name Heq. apply append_not_longer in Heq.
    by apply tuple_str_not_empty in Ha.
Qed.

(** X17: when a descriptor is given (and true), the string form, the id
    and the address of the case depend on the descriptor and the
    arguments alone: two cases generated from it with the same
    arguments get the same ones, whatever function each one runs; the
    address is that of the descriptor. *)
Theorem name_and_address_follow_descriptor
    D arg0 test1 setUp1 tearDown1 test2 setUp2 tearDown2 s :
  truth D = true →
  __str__ (__init__ test1 setUp1 tearDown1 arg0 D) s
  = __str__ (__init__ test2 setUp2 tearDown2 arg0 D) s
  ∧ id (__init__ test1 setUp1 tearDown1 arg0 D) s
    = id (__init__ test2 setUp2 tearDown2 arg0 D) s
  ∧ address (__init__ test1 setUp1 tearDown1 arg0 D) s
    = call rt_test_address [D] s
  ∧ address (__init__ test2 setUp2 tearDown2 arg0 D) s
    = call rt_test_address [D] s.
Proof.
  intros HD.
  assert (∀ t0 su td, __str__ (__init__ t0 su td arg0 D) s
                      = __str__ (__init__ D VNone VNone arg0 D) s) as Hstr.
  { intros t0 su td. rewrite !str_unfold. unfold _descriptors, __init__.
    simpl. by rewrite HD. }
  assert (is_None D = false) as HN by (by destruct D).
  split; [by rewrite (Hstr test1), (Hstr test2)|].
  split; [unfold id, TestBase.id; by rewrite (Hstr test1), (Hstr test2)|].
  unfold address, __init__. simpl. by rewrite HN.
Qed.

(** X18: naming asks whether the descriptor is true, addressing whether
    it is [None]. For a descriptor that is false without being [None],
    the case is named after the test function and addressed by the
    descriptor. *)
Theorem false_descriptor_names_test test0 setUp tearDown arg0 D s :
  D ≠ VNone →
  truth D = false →
  _descriptors (__init__ test0 setUp tearDown arg0 D) = (test0, arg0)
  ∧ address (__init__ test0 setUp tearDown arg0 D) s
    = call rt_test_address [D] s.
Proof.
  intros HN HD. unfold _descriptors, address, __init__. simpl.
  rewrite HD. split; [done|]. by destruct D.
Qed.

End FunctionTestCase_more.

(** * More properties of [MethodTestCase] *)
Section MethodTestCase_more.
Import MethodTestCase.
Context {W : Type} `{rt : Runtime W}.
Variable instantiate : classdef → M heap ref.

Lemma method_str_unfold self s :
  __str__ self s
  = (name <- compat_name (_descriptors self).1;;
     n <- format_s name;;
     let name :=
       (cls_module (cls self) ++ "." ++ cls_name (cls self) ++ "." ++ n)%string
     in
     if truth (_descriptors self).2 then
       a <- format_s (_descriptors self).2;; ret (name ++ a)%string
     else ret name) s.
Proof. unfold __str__. by destruct (_descriptors self). Qed.

(** X19: the string form of a method case always begins with the module
    and the name of the class that was instantiated, whatever function
    or descriptor supplies the rest. *)
Theorem str_begins_with_class self s name s' :
  __str__ self s = (Ok name, s') →
  ∃ rest,
    name
    = (cls_module (cls self) ++ "." ++ cls_name (cls self) ++ "." ++ rest)%string.
Proof.
  rewrite method_str_unfold. unfold bind.
  destruct (compat_name _ s) as [[nm|e] s1]; [|done].
  destruct (format_s nm s1) as [[n|e] s2]; [|done].
  destruct (truth _).
  - destruct (format_s _ s2) as [[a|e] s3]; [|done].
    intros [= <- _]. exists (n ++ a)%string.
    by rewrite !append_assoc.
  - intros [= <- _]. by exists n.
Qed.

(** X20: as for function cases, the string form of a method case with
    a non-empty argument tuple is computed as the string form the same
    case has without arguments, then the display of the tuple, which
    runs the [__repr__] of each item and may fail there. *)
Theorem method_str_with_arguments self0 self items s :
  arg self0 = VTuple [] →
  arg self = VTuple items →
  items ≠ [] →
  method self = method self0 →
  descriptor self = descriptor self0 →
  cls self = cls self0 →
  __str__ self s
  = (name <- __str__ self0;;
     a <- tuple_str items;;
     ret (name ++ a)%string) s
  ∧ ∀ s1 a s2, tuple_str items s1 = (Ok a, s2) →
               ∀ name, (name ++ a)%string ≠ name.
Proof.
  intros H0 Ha Hi Hm Hd Hc. split.
  - assert (truth (VTuple items) = true) as Ht by (by destruct items).
    rewrite method_str_unfold.
    change ((name <- __str__ ?c;; @?k name) s)%py
      with (match __str__ c s with
            | (Ok name, s1) => k name s1
            | (Raise e, s1) => (Raise e, s1)
            end).
    rewrite method_str_unfold.
    unfold _descriptors.
    rewrite H0, Ha, Hm, Hd, Hc.
    destruct (truth (descriptor self0)); cbn [fst snd]; rewrite Ht;
      change (truth (VTuple [])) with false; cbn [format_s];
      unfold bind;
      repeat match goal with
        | |- context [match ?m s with _ => _ end] =>
            destruct (m s) as [[?|?] ?]; simpl; try done
        | |- context [match ?k ?a ?st with _ => _ end] =>
            destruct (k a st) as [[?|?] ?]; simpl; try done
        end.
  - intros s1 a s2 Hs name Heq. apply append_not_longer in Heq.
    by apply tuple_str_not_empty in Hs.
Qed.

(** X21: a method case built without descriptor is addressed by the
    method it was given, not by the method it runs (the one looked up on
    the new instance); built with a descriptor, by the descriptor. *)
Theorem address_of_constructed m t0 a d (h h' : heap) mc (s : state W) :
  __init__ instantiate m t0 a d h = (Ok mc, h') →
  (d = VNone → address mc s = call rt_test_address [m] s)
  ∧ (d ≠ VNone → address mc s = call rt_test_address [d] s).
Proof.
  intros Hinit.
  assert (method mc = m ∧ descriptor mc = d) as [Hm Hd].
  { revert Hinit. unfold __init__.
    destruct (isfunction m); [done|]. unfold bind.
    destruct (get___self__ m h) as [[r|e] h1]; [|done].
    destruct (get___class__ r h1) as [[c|e] h2]; [|done].
    destruct (instantiate c h2) as [[i|e] h3]; [|done].
    destruct (is_None t0).
    - destruct (get___name__ m h3) as [[n|e] h4]; [|done].
      destruct (getattr_inst i n h4) as [[v|e] h5]; [|done].
      by intros [= <- _].
    - by intros [= <- _]. }
  unfold address. rewrite Hm, Hd. split.
  - by intros ->.
  - intros Hn. by destruct d.
Qed.

(** X22: which callable a method case runs. An explicit [test] argument
    is kept as it is; without one, and unless the instance the class
    returned holds something under the method's name in its own
    [__dict__], it is a method of that name bound to that instance. *)
Theorem init_test_callable m t0 a d (h h' : heap) mc :
  __init__ instantiate m t0 a d h = (Ok mc, h') →
  (t0 ≠ VNone → test mc = t0)
  ∧ (∀ r f,
       t0 = VNone → m = VMethod r f →
       own_attr h' (inst mc) (fn_name f) = None →
       ∃ g, test mc = VMethod (inst mc) g ∧ fn_name g = fn_name f).
Proof.
  intros Hinit. split.
  - intros Hn. revert Hinit. unfold __init__.
    destruct (isfunction m); [done|]. unfold bind.
    destruct (get___self__ m h) as [[r|e] h1]; [|done].
    destruct (get___class__ r h1) as [[c|e] h2]; [|done].
    destruct (instantiate c h2) as [[i|e] h3]; [|done].
    destruct t0; try done; by intros [= <- _].
  - intros r f -> -> Hd.
    by eapply init_binds_instance.
Qed.

(** X23: what a construction leaves behind. Whatever its outcome, the
    heap afterwards is the heap before or the heap that the one call of
    the class left. And when the class returned an instance on which the
    lookup of the method's name then fails, the construction fails with
    that exception while what the call of the class did stays: the
    instance it made is live, and no case holds it. *)
Theorem init_frame m t0 a d (h h' : heap) o :
  __init__ instantiate m t0 a d h = (o, h') →
  (h' = h
   ∨ ∃ r f i o',
       m = VMethod r f ∧ objects h !! r = Some i
       ∧ instantiate (inst_class i) h = (o', h'))
  ∧ (∀ r f i r' h1 e,
       m = VMethod r f → objects h !! r = Some i → t0 = VNone →
       instantiate (inst_class i) h = (Ok r', h1) →
       getattr_inst r' (fn_name f) h1 = (Raise e, h1) →
       o = Raise e ∧ h' = h1).
Proof.
  intros Hinit. split.
  - revert Hinit. unfold __init__.
    destruct (isfunction m); [by intros [= _ <-]; left|]. unfold bind.
    destruct m as [| | | | |r f| |]; simpl;
      try (by intros [= _ <-]; left).
    unfold get___class__. destruct (objects h !! r) as [i|] eqn:Hr; simpl;
      [|by intros [= _ <-]; left].
    destruct (instantiate (inst_class i) h) as [[r'|e] h1] eqn:Hc.
    + intros Hrest. right. exists r, f, i, (Ok r').
      split; [done|]. split; [done|].
      destruct (is_None t0); simpl in Hrest.
      * destruct (getattr_inst _ _ _) as [[v|e] h5] eqn:Hg;
          apply getattr_inst_heap in Hg as ->; by injection Hrest as _ <-.
      * by injection Hrest as _ <-.
    + intros [= _ <-]. right. by exists r, f, i, (Raise e).
  - intros r f i r' h1 e -> Hr -> Hc Hg. revert Hinit.
    unfold __init__. simpl. unfold bind, get___class__. simpl.
    rewrite Hr, Hc. simpl. rewrite Hg. by intros [= <- <-].
Qed.

End MethodTestCase_more.

(** * The further properties on the concrete collaborators *)
Section Run_witnesses.
Import Test Example.

Lemma run_returns_only_after_report_witness :
  run adapter result (start (failing_test value_error))
  = (Ok tt, (run adapter result (start (failing_test value_error))).2)
  ∧ isinstance value_error KeyboardInterrupt = false
  ∧ isinstance value_error Exception = true
  ∧ calls is_addError
      (run adapter result (start (failing_test value_error))).2
    = [EvAddError result (VObj 20) (VExcInfo value_error)].
Proof.
  split; [reflexivity|].
  eapply (run_returns_only_after_report adapter result
            (start (failing_test value_error))); by cbv.
Defined.

Lemma run_beforeTest_failure_skips_test_witness :
  (beforeTest adapter result (start (failing_before interrupt))).1
  = Raise interrupt
  ∧ calls is_test (run adapter result (start (failing_before interrupt))).2
    = [].
Proof.
  split; [reflexivity|].
  eapply (run_beforeTest_failure_skips_test adapter result
            (start (failing_before interrupt))); by cbv.
Defined.

Lemma run_passes_on_other_exceptions_witness :
  isinstance system_exit KeyboardInterrupt = false
  ∧ isinstance system_exit Exception = false
  ∧ calls is_addError
      (run adapter result (start (failing_test system_exit))).2 = []
  ∧ calls is_afterTest
      (run adapter result (start (failing_test system_exit))).2
    = [EvAfterTest result the_test]
  ∧ (run adapter result (start (failing_test system_exit))).1
    = Raise system_exit.
Proof.
  edestruct (run_passes_on_other_exceptions adapter result
               (start (failing_test system_exit)))
    as (Hno & Hafter & Hout); [by cbv..|].
  split; [reflexivity|]. split; [reflexivity|]. split; [exact Hno|]. split.
  - eapply Hafter. reflexivity.
  - erewrite Hout; reflexivity.
Defined.

Lemma run_proxy_failure_calls_nothing_witness :
  truth (resultProxy proxied_adapter) = true
  ∧ run proxied_adapter result (start (failing_proxy value_error))
    = (Raise value_error,
       State (failing_proxy value_error)
         [EvResultProxy proxy_factory result (VObj 20)]).
Proof.
  split; [reflexivity|].
  by apply (run_proxy_failure_calls_nothing proxied_adapter result
              (start (failing_proxy value_error))).
Defined.

Lemma run_afterTest_failure_wins_witness :
  (guarded adapter result
     (start (interrupted_failing_after assertion_error value_error))).1
  = Ok tt
  ∧ (run adapter result
       (start (interrupted_failing_after assertion_error value_error))).1
    = Raise value_error.
Proof.
  split; [reflexivity|].
  erewrite (run_afterTest_failure_wins adapter result
              (start (interrupted_failing_after assertion_error value_error)));
    by cbv.
Defined.

Lemma hooks_optional_not_silenced_witness :
  afterTest adapter result (start (without_hooks value_error))
  = (Ok tt, start (without_hooks value_error))
  ∧ afterTest adapter result
      (start (interrupted_failing_after interrupt value_error))
    = (Raise value_error,
       State (interrupted_failing_after interrupt value_error)
         [EvAfterTest result the_test])
  ∧ beforeTest adapter result (start (without_hooks value_error))
    = (Ok tt, start (without_hooks value_error))
  ∧ beforeTest adapter result (start (failing_before value_error))
    = (Raise value_error,
       State (failing_before value_error) [EvBeforeTest result the_test]).
Proof.
  destruct (hooks_optional_not_silenced adapter result
              (start (without_hooks value_error)))
    as (Hafter & _ & Hbefore & _).
  destruct (hooks_optional_not_silenced adapter result
              (start (interrupted_failing_after interrupt value_error)))
    as (_ & Hafter' & _).
  destruct (hooks_optional_not_silenced adapter result
              (start (failing_before value_error)))
    as (_ & _ & _ & Hbefore').
  split; [by eapply Hafter|]. split; [by eapply Hafter'|].
  split; [by eapply Hbefore|]. by eapply Hbefore'.
Defined.

Lemma shortDescription_returns_own_description_witness :
  shortDescription adapter (start (described VNone (VStr "d") VNone "x"))
  = (Ok (VStr "d"), start (described VNone (VStr "d") VNone "x")).
Proof.
  exact (shortDescription_returns_own_description adapter
           (start (described VNone (VStr "d") VNone "x"))
           plugins_describeTest
           (described VNone (VStr "d") VNone "x")
           (described VNone (VStr "d") VNone "x")
           (start (described VNone (VStr "d") VNone "x"))
           test_shortDescription
           (described VNone (VStr "d") VNone "x") (VStr "d")
           (described VNone (VStr "d") VNone "x") (Ok "x")
           (described VNone (VStr "d") VNone "x")
           eq_refl eq_refl eq_refl eq_refl eq_refl eq_refl eq_refl).
Defined.

End Run_witnesses.

Section Table_witnesses.
Import Tables.
Local Existing Instance Tables.runtime.

Lemma runTest_calls_substitute_witness :
  Test.runTest Example.adapter (VObj 1) (start substituting)
  = (Ok tt,
     State substituting
       [EvTest (VObj 40) (VObj 1); EvPrepareTestCase (VObj 6) (VObj 20)]).
Proof.
  by erewrite (runTest_calls_substitute Example.adapter (VObj 1)
                 (start substituting)); [|by cbv..].
Defined.

Lemma shortDescription_swallows_failure_witness :
  (method_call (VObj 5) "shortDescription" [] (start undescribed)).1
  = Raise (missing "shortDescription")
  ∧ Test.shortDescription Example.adapter (start undescribed)
    = (Ok VNone, start undescribed).
Proof.
  split; [reflexivity|].
  by erewrite (shortDescription_swallows_failure Example.adapter
                 (start undescribed)); [|by cbv..].
Defined.

Lemma strip_testMethodDoc_never_AttributeError_witness :
  Test.strip_testMethodDoc (VObj 5) (start awkward)
  = (Raise not_callable, start awkward)
  ∧ isinstance not_callable AttributeError = false.
Proof.
  split; [reflexivity|].
  by eapply (strip_testMethodDoc_never_AttributeError (VObj 5)
               (start awkward)).
Defined.

Lemma context_never_AttributeError_witness :
  Test.context Example.adapter (start awkward)
  = (Raise (Exn (Builtin ValueError) "no context"), start awkward)
  ∧ isinstance (Exn (Builtin ValueError) "no context") AttributeError = false.
Proof.
  split; [reflexivity|].
  by eapply (context_never_AttributeError Example.adapter (start awkward)).
Defined.

Lemma shortDescription_of_doc_witness :
  FunctionTestCase.shortDescription (generated []) (start documented)
  = (Ok (VStr "Even numbers stay even."), start documented).
Proof.
  edestruct (shortDescription_of_doc (VFunction check) (VFunction test_evens)
               (VTuple []) (FunctionTestCase.__str__ (generated []))
               (start documented)) as [Hdesc _];
    [by cbv..|].
  exact Hdesc.
Defined.

Lemma shortDescription_falls_back_to_str_witness :
  FunctionTestCase.shortDescription plain (start documented)
  = (Ok (VStr "tests.gen.check"), start documented).
Proof.
  change (FunctionTestCase.shortDescription plain (start documented))
    with (TestBase.shortDescription (VFunction check)
            (VFunction check, VTuple []) (FunctionTestCase.__str__ plain)
            (start documented)).
  by erewrite (shortDescription_falls_back_to_str (VFunction check)
                 (VFunction check) (VTuple [])
                 (FunctionTestCase.__str__ plain) (start documented));
    [|by cbv..].
Defined.

Lemma shortDescription_description_wins_witness :
  FunctionTestCase.shortDescription (generated []) (start described)
  = (Ok (VStr " checks 2 "), start described).
Proof.
  change (FunctionTestCase.shortDescription (generated []) (start described))
    with (TestBase.shortDescription (VFunction check)
            (VFunction test_evens, VTuple [])
            (FunctionTestCase.__str__ (generated [])) (start described)).
  by erewrite (shortDescription_description_wins (VFunction check)
                 (VFunction test_evens, VTuple [])
                 (FunctionTestCase.__str__ (generated []))
                 (start described)); [|by cbv..].
Defined.

(** The arguments of a generated test are displayed after its name; an
    argument whose [__repr__] raises (object 60) makes [__str__] raise. *)
Lemma str_with_arguments_witness :
  FunctionTestCase.__str__ (generated []) (start no_tables)
  = (Ok "tests.gen.test_evens", start no_tables)
  ∧ FunctionTestCase.__str__ (generated [VStr "a"; VNone]) (start no_tables)
    = (Ok "tests.gen.test_evens('a', None)", start no_tables)
  ∧ FunctionTestCase.__str__ (generated [VStr "a"; VObj 60]) (start no_tables)
    = (Raise (Exn (Builtin ValueError) "no repr"), start no_tables).
Proof.
  split; [reflexivity|]. split.
  - destruct (str_with_arguments (VFunction check) VNone VNone
                (VFunction test_evens) [VStr "a"; VNone] (start no_tables))
      as [Hstr _]; [done|].
    etransitivity; [exact Hstr | reflexivity].
  - destruct (str_with_arguments (VFunction check) VNone VNone
                (VFunction test_evens) [VStr "a"; VObj 60] (start no_tables))
      as [Hstr _]; [done|].
    etransitivity; [exact Hstr | reflexivity].
Defined.

Lemma name_and_address_follow_descriptor_witness :
  FunctionTestCase.__str__ (generated []) (start decorated)
  = (Ok "tests.gen.test_evens_orig", start decorated)
  ∧ FunctionTestCase.__str__
      (FunctionTestCase.__init__ (VObj 77) VNone VNone (VTuple [])
         (VFunction test_evens)) (start decorated)
    = (Ok "tests.gen.test_evens_orig", start decorated)
  ∧ FunctionTestCase.address (generated []) (start decorated)
    = (Ok (address_of (VFunction test_evens)), start decorated).
Proof.
  destruct (name_and_address_follow_descriptor (VFunction test_evens)
              (VTuple []) (VObj 77) VNone VNone (VFunction check) VNone VNone
              (start decorated) eq_refl) as (Hstr & _ & _ & Haddr).
  split; [reflexivity|]. split.
  - etransitivity; [exact Hstr | reflexivity].
  - etransitivity; [exact Haddr | reflexivity].
Defined.

Lemma false_descriptor_names_test_witness :
  FunctionTestCase._descriptors
    (FunctionTestCase.__init__ (VFunction check) VNone VNone (VTuple [])
       (VStr ""))
  = (VFunction check, VTuple [])
  ∧ FunctionTestCase.address
      (FunctionTestCase.__init__ (VFunction check) VNone VNone (VTuple [])
         (VStr "")) (start no_tables)
    = (Ok (address_of (VStr "")), start no_tables).
Proof.
  destruct (false_descriptor_names_test (VFunction check) VNone VNone
              (VTuple []) (VStr "") (start no_tables)) as [Hname Haddr];
    [done..|].
  split; [exact Hname|]. etransitivity; [exact Haddr | reflexivity].
Defined.

Lemma str_begins_with_class_witness :
  MethodTestCase.__str__ (Example.case_on 1) (start no_tables)
  = (Ok "tests.test_mod.TestThing.test_it", start no_tables)
  ∧ ∃ rest, "tests.test_mod.TestThing.test_it"
            = ("tests.test_mod" ++ "." ++ "TestThing" ++ "." ++ rest)%string.
Proof.
  split; [reflexivity|].
  by apply (str_begins_with_class (Example.case_on 1) (start no_tables)
              "tests.test_mod.TestThing.test_it" (start no_tables)).
Defined.

Lemma method_str_with_arguments_witness :
  let with_args :=
    {| MethodTestCase.method := Example.method0;
       MethodTestCase.test := VMethod 1 Example.test_it;
       MethodTestCase.arg := VTuple [VStr "x"];
       MethodTestCase.descriptor := VNone;
       MethodTestCase.cls := Example.test_class;
       MethodTestCase.inst := 1 |} in
  MethodTestCase.__str__ with_args (start no_tables)
  = (Ok "tests.test_mod.TestThing.test_it('x',)", start no_tables).
Proof.
  intros with_args.
  destruct (method_str_with_arguments (Example.case_on 1) with_args
              [VStr "x"] (start no_tables)) as [Hstr _]; [done..|].
  etransitivity; [exact Hstr | reflexivity].
Defined.

Lemma address_of_constructed_witness :
  let instantiate := MethodTestCase.new Example.construct in
  MethodTestCase.__init__ instantiate Example.method0 VNone (VTuple [])
    VNone Example.loaded
  = (Ok (Example.case_on 1),
     (MethodTestCase.__init__ instantiate Example.method0 VNone
        (VTuple []) VNone Example.loaded).2)
  ∧ MethodTestCase.address (Example.case_on 1) (start no_tables)
    = (Ok (address_of Example.method0), start no_tables)
  ∧ MethodTestCase.test (Example.case_on 1) ≠ Example.method0.
Proof.
  intros instantiate.
  assert (MethodTestCase.__init__ instantiate Example.method0 VNone
            (VTuple []) VNone Example.loaded
          = (Ok (Example.case_on 1),
             (MethodTestCase.__init__ instantiate Example.method0 VNone
                (VTuple []) VNone Example.loaded).2)) as Hinit
    by (by vm_compute).
  split; [exact Hinit|]. split; [|discriminate].
  destruct (address_of_constructed instantiate _ _ _ _ _ _ _
              (start no_tables) Hinit) as [Hnone _].
  etransitivity; [exact (Hnone eq_refl) | reflexivity].
Defined.


End Table_witnesses.

Section Heap_witnesses.
Import MethodTestCase Example.

(** Built without a test callable, the case runs [test_it] bound to its
    instance 1; built with [check], it runs [check]. *)
Lemma init_test_callable_witness :
  let instantiate := new construct in
  __init__ instantiate method0 VNone (VTuple []) VNone loaded
  = (Ok (case_on 1), allocated loaded 1 test_class 1 {[ "seen" := VNone ]})
  ∧ (∃ g, test (case_on 1) = VMethod (inst (case_on 1)) g
          ∧ fn_name g = fn_name test_it)
  ∧ (∃ mc h',
       __init__ instantiate method0 check (VTuple []) VNone loaded
       = (Ok mc, h')
       ∧ test mc = check).
Proof.
  intros instantiate.
  assert (__init__ instantiate method0 VNone (VTuple []) VNone loaded
          = (Ok (case_on 1),
             allocated loaded 1 test_class 1 {[ "seen" := VNone ]}))
    as Hinit by (by vm_compute).
  split; [exact Hinit|]. split.
  - destruct (init_test_callable instantiate _ _ _ _ _ _ _ Hinit)
      as [_ Hbound].
    apply (Hbound 0 test_it eq_refl eq_refl). by vm_compute.
  - assert (__init__ instantiate method0 check (VTuple []) VNone loaded
            = (Ok {| method := method0; test := check; arg := VTuple [];
                     descriptor := VNone; cls := test_class; inst := 1 |},
               allocated loaded 1 test_class 1 {[ "seen" := VNone ]}))
      as Hbuilt by (by vm_compute).
    destruct (init_test_callable instantiate _ _ _ _ _ _ _ Hbuilt)
      as [Hkept _].
    eexists _, _. split; [exact Hbuilt|]. by apply Hkept.
Defined.

(** The class of the instance has no method [gone]: the construction
    fails, and the instance that was made for it stays. *)
Lemma init_frame_witness :
  let built := __init__ (new construct) (VMethod 0 (Func "tests.test_mod" "gone"))
                 VNone (VTuple []) VNone loaded in
  built.1 = Raise (no_attribute "gone")
  ∧ built.2 = allocated loaded 1 test_class 1 {[ "seen" := VNone ]}
  ∧ 1 ∉ dom (objects loaded).
Proof.
  intros built.
  destruct (init_frame (new construct)
              (VMethod 0 (Func "tests.test_mod" "gone"))
              VNone (VTuple []) VNone loaded built.2 built.1) as [_ Hleft].
  { apply surjective_pairing. }
  destruct (Hleft 0 (Func "tests.test_mod" "gone") (Instance test_class 0) 1
              (allocated loaded 1 test_class 1 {[ "seen" := VNone ]})
              (no_attribute "gone") eq_refl) as [Ho Hh];
    [by vm_compute..|].
  split; [exact Ho|]. split; [exact Hh|].
  by vm_compute.
Defined.

End Heap_witnesses.
